(** * Dynamic Plan-and-Solve agent: the control loop of [4_3-dynamicPlanAndSolve.py]

    A shallow embedding of [Planner], [Evaluator] and
    [DynamicPlanAndSolveAgent], and the properties of the plan / execute /
    evaluate / retry / replan loop.

    Conventions of the embedding.
    - A Python [str] is a [string] of bytes, its UTF-8 encoding: searching,
      splitting and joining texts are the same on the bytes as on the
      characters.
    - The objects the program does not define are gathered in the class
      [Platform]: the language model behind [llm_client.think] (a state
      machine: one call takes a prompt and yields [Some text], or [None] as
      [BaseAgent.think] does on any error), [ast.literal_eval] ([None] stands
      for any exception it raises), [str()] of a value that is not a text,
      and the two methods of [str] that depend on the Unicode tables,
      [str.strip] and [str.upper].  Of these two the class fixes what they do
      on ASCII text: there they are [PyStr.strip] and [PyStr.upper].
    - [print] statements are not modelled.  The calls the components receive
      are recorded in a trace, which no function of the program reads. *)

From Stdlib Require Import String Ascii List Arith Bool Lia ZArith.
From Stdlib Require Import DecimalString.
Import ListNotations.
Local Open Scope string_scope.
Local Open Scope list_scope.

Set Implicit Arguments.

(** ** Python strings *)

Module PyStr.

(** [s[n:]] *)
Fixpoint drop (n : nat) (s : string) : string :=
  match n, s with
  | S k, String _ t => drop k t
  | _, _ => s
  end.

(** [pat in s]: some suffix of [s] starts with [pat]. *)
Fixpoint contains (pat s : string) : bool :=
  prefix pat s ||
  match s with
  | EmptyString => false
  | String _ t => contains pat t
  end.

(** One scan of [s.split(sep)] for a non-empty [sep]: the segment that is
    being read, and the segments after it.  [skip] counts the characters of
    a separator just matched that are still to be passed over. *)
Fixpoint split_go (sep : string) (skip : nat) (s : string) : string * list string :=
  match s with
  | EmptyString => (EmptyString, [])
  | String c t =>
      match skip with
      | S k => split_go sep k t
      | O =>
          if prefix sep s
          then (EmptyString,
                let (seg, segs) := split_go sep (String.length sep - 1) t in seg :: segs)
          else let (seg, segs) := split_go sep 0 t in (String c seg, segs)
      end
  end.

(** [s.split(sep)] *)
Definition split (sep s : string) : list string :=
  let (seg, segs) := split_go sep 0 s in seg :: segs.

(** [c.isspace()] on ASCII: TAB, LF, VT, FF, CR, FS, GS, RS, US and space. *)
Definition isspace (c : ascii) : bool :=
  let n := nat_of_ascii c in
  (Nat.leb 9 n && Nat.leb n 13) || (Nat.leb 28 n && Nat.leb n 32).

Fixpoint lstrip (s : string) : string :=
  match s with
  | String c t => if isspace c then lstrip t else s
  | EmptyString => EmptyString
  end.

Fixpoint rstrip (s : string) : string :=
  match s with
  | EmptyString => EmptyString
  | String c t =>
      match rstrip t with
      | EmptyString => if isspace c then EmptyString else String c EmptyString
      | t' => String c t'
      end
  end.

(** [s.strip()], for a text of ASCII characters. *)
Definition strip (s : string) : string := rstrip (lstrip s).

Definition upper_char (c : ascii) : ascii :=
  let n := nat_of_ascii c in
  if Nat.leb 97 n && Nat.leb n 122 then ascii_of_nat (n - 32) else c.

(** [s.upper()], for a text of ASCII characters. *)
Fixpoint upper (s : string) : string :=
  match s with
  | EmptyString => EmptyString
  | String c t => String (upper_char c) (upper t)
  end.

(** [sep.join(l)] *)
Fixpoint join (sep : string) (l : list string) : string :=
  match l with
  | [] => EmptyString
  | [x] => x
  | x :: rest => x ++ sep ++ join sep rest
  end.

(** [x or default] for an optional text: [None] and the empty text are
    both falsy. *)
Definition or_else (x : option string) (default : string) : string :=
  match x with
  | Some (String c t) => String c t
  | _ => default
  end.

(** [str(n)] for a natural number. *)
Definition of_nat (n : nat) : string := NilEmpty.string_of_uint (Nat.to_uint n).

(** The double quote character, as a text. *)
Definition dq : string := String (ascii_of_nat 34) EmptyString.

(** The line feed, as a text. *)
Definition nl : string := String (ascii_of_nat 10) EmptyString.

(** [pat] occurs in [s]. *)
Definition occurs (pat s : string) : Prop :=
  exists pre post, s = (pre ++ pat ++ post)%string.

(** Every character of [s] is an ASCII character. *)
Fixpoint is_ascii (s : string) : bool :=
  match s with
  | EmptyString => true
  | String c t => Nat.ltb (nat_of_ascii c) 128 && is_ascii t
  end.

(** The same character, or the same letter of the alphabet in the other
    case: the [k]-th capital is character 65 + [k], the [k]-th small letter
    character 97 + [k]. *)
Definition same_letter (c d : ascii) : Prop :=
  c = d
  \/ exists k, k < 26
       /\ ((nat_of_ascii c = 65 + k /\ nat_of_ascii d = 97 + k)
           \/ (nat_of_ascii c = 97 + k /\ nat_of_ascii d = 65 + k)).

(** Two texts of the same length with the same letters, whatever the case. *)
Fixpoint same_text (a b : string) : Prop :=
  match a, b with
  | EmptyString, EmptyString => True
  | String c a', String d b' => same_letter c d /\ same_text a' b'
  | _, _ => False
  end.

(** [pat] occurs in [s] up to the case of letters. *)
Definition occurs_anycase (pat s : string) : Prop :=
  exists pre mid post, s = (pre ++ mid ++ post)%string /\ same_text mid pat.

End PyStr.

Import PyStr.

(** ** Values and the platform *)

(** What [ast.literal_eval] can return: the plan is expected to be a list
    of texts, but any literal is accepted by the parser. *)
#[local] Set Warnings "-register-all".
Inductive pyvalue : Type :=
| PyNone
| PyBool (b : bool)
| PyInt (z : Z)
| PyStr (s : string)
| PyList (items : list pyvalue)
| PyTuple (items : list pyvalue)
| PyOther (source : string).   (* float, complex, bytes, dict, set *)

Class Platform : Type := {
  (** the state of the [llm_client] object and of the service behind it *)
  client : Type;
  (** [llm_client.think(messages=[{"role": "user", "content": prompt}])] *)
  think : client -> string -> option string * client;
  (** [ast.literal_eval(text)]; [None] when it raises *)
  literal_eval : string -> option pyvalue;
  (** [str(v)] for a value [v] that is not a text *)
  repr : pyvalue -> string;
  (** [text.strip()] *)
  str_strip : string -> string;
  (** [text.upper()] *)
  str_upper : string -> string;
  (** on ASCII text the two are the functions of [PyStr] *)
  str_strip_ascii : forall s, is_ascii s = true -> str_strip s = strip s;
  str_upper_ascii : forall s, is_ascii s = true -> str_upper s = upper s
}.

(** ** Prompts: the three templates, as functions of their fields *)

Definition PLANNER_PROMPT_TEMPLATE (question history failure_info : string) : string :=
  "
你是一个顶级的AI规划专家。你的任务是将用户提出的复杂问题分解成一个由多个简单步骤组成的行动计划。

问题: " ++ question ++ "

# 已完成的历史记录 (如果有):
" ++ history ++ "

# 失败信息 (如果有):
" ++ failure_info ++ "

请根据以上信息，生成一个新的、可行的行动计划。
注意事项:
1. 如果有已完成的历史记录，你的新计划应该从这些已完成的步骤之后继续，不要重复已完成的工作。
2. 如果有失败信息，请分析失败原因，并设计一个能够绕过或解决该问题的新计划。
3. 确保计划中的每个步骤都是独立的、可执行的子任务，并严格按照逻辑顺序排列。

输出必须是一个Python列表，格式如下:
```python
[" ++ dq ++ "步骤1" ++ dq ++ ", " ++ dq ++ "步骤2" ++ dq ++ ", ...]
```
".

Definition EXECUTOR_PROMPT_TEMPLATE (question plan history current_step : string) : string :=
  "
你是一位顶级的AI执行专家。你的任务是严格按照给定的计划，一步步地解决问题。
你将收到原始问题、完整的计划、以及到目前为止已经完成的步骤和结果。
请你专注于解决" ++ dq ++ "当前步骤" ++ dq ++ "，并仅输出该步骤的最终答案，不要输出任何额外的解释或对话。

# 原始问题:
" ++ question ++ "

# 完整计划:
" ++ plan ++ "

# 历史步骤与结果:
" ++ history ++ "

# 当前步骤:
" ++ current_step ++ "

请仅输出针对" ++ dq ++ "当前步骤" ++ dq ++ "的回答:
".

Definition EVALUATOR_PROMPT_TEMPLATE (question current_step result : string) : string :=
  "
你是一位严格的AI评估专家。你的任务是评估一个子任务的执行结果。
请根据原始问题、当前步骤以及执行结果，判断该步骤是否成功完成。

原始问题:
" ++ question ++ "

当前步骤:
" ++ current_step ++ "

执行结果:
" ++ result ++ "

请分析该结果是否合理、正确，并判断是否能够支持后续步骤的进行。
你的输出必须是以下三种之一，请直接输出，不要有任何其他内容:

SUCCESS - 如果步骤成功完成且结果合理。
FAILURE_RETRY - 如果步骤失败，但可以通过重新尝试（例如，换一种方式表述）来解决。
FAILURE_REPLAN - 如果步骤失败，且问题出在计划本身，需要回退并重新规划。

输出: 
".

(** ** The run-time world: the client, and a record of what was called *)

Section Components.

Context {P : Platform}.

(** A history entry [{"step": ..., "result": ...}]. *)
Record entry : Type := Entry { step : pyvalue; result : string }.

(** The calls the three components served, in the order they were made. *)
Inductive event : Type :=
| EvPlan (history_str failure_info : string) (new_plan : list pyvalue)
| EvExecute (current_step : pyvalue) (output : string)
| EvEvaluate (current_step : pyvalue) (output evaluation : string).

Record world : Type := World {
  llm : client;               (* the client object *)
  requests : list string;     (* the prompts sent to the client so far *)
  trace : list event          (* the component calls completed so far *)
}.

(** Computations that call the client. *)
Definition M (A : Type) : Type := world -> A * world.

Definition ret {A} (a : A) : M A := fun w => (a, w).

Definition bind {A B} (m : M A) (k : A -> M B) : M B :=
  fun w => let (a, w') := m w in k a w'.

Notation "'let*' x ':=' m 'in' k" := (bind m (fun x => k))
  (at level 10, x name, m at level 100, k at level 200).

(** One request to the client. *)
Definition call_think (prompt : string) : M (option string) :=
  fun w =>
    let (response, llm') := think (llm w) prompt in
    (response, {| llm := llm'; requests := requests w ++ [prompt]; trace := trace w |}).

Definition log (e : event) : M unit :=
  fun w => (tt, {| llm := llm w; requests := requests w; trace := trace w ++ [e] |}).

(** [f"{v}"] *)
Definition format_value (v : pyvalue) : string :=
  match v with
  | PyStr s => s
  | other => repr other
  end.

(** ** Planner *)

(** The [try] block of [Planner.plan]: every exception ends in [[]]. *)
Definition parse_plan (response_text : string) : list pyvalue :=
  match nth_error (split "```python" response_text) 1 with
  | None => []                                   (* IndexError *)
  | Some after_tag =>
      match nth_error (split "```" after_tag) 0 with
      | None => []
      | Some block =>
          let plan_str := str_strip block in
          match literal_eval plan_str with
          | Some (PyList plan) => plan           (* isinstance(plan, list) *)
          | Some _ => []
          | None => []                           (* ValueError, SyntaxError, ... *)
          end
      end
  end.

Definition Planner_plan (question history failure_info : string) : M (list pyvalue) :=
  let prompt := PLANNER_PROMPT_TEMPLATE question history failure_info in
  let* response := call_think prompt in
  let response_text := or_else response "" in
  let plan := parse_plan response_text in
  let* _ := log (EvPlan history failure_info plan) in
  ret plan.

(** ** Evaluator *)

(** The [if] / [elif] / [else] of [Evaluator.evaluate]. *)
Definition classify (response_text : string) : string :=
  if contains "SUCCESS" (str_upper response_text) then "SUCCESS"
  else if contains "FAILURE_RETRY" (str_upper response_text) then "FAILURE_RETRY"
  else "FAILURE_REPLAN".

Definition Evaluator_evaluate (question : string) (current_step : pyvalue)
    (output : string) : M string :=
  let prompt :=
    EVALUATOR_PROMPT_TEMPLATE question (format_value current_step) output in
  let* response := call_think prompt in
  let response_text := or_else response "FAILURE_REPLAN" in
  let evaluation := classify response_text in
  let* _ := log (EvEvaluate current_step output evaluation) in
  ret evaluation.

(** ** DynamicPlanAndSolveAgent *)

Definition MAX_REPLANS : nat := 3.
Definition MAX_RETRIES : nat := 2.

(** The attributes of the agent that [run] writes. *)
Record agent : Type := Agent {
  history : list entry;
  replan_count : nat
}.

(** [__init__] *)
Definition init : agent := {| history := []; replan_count := 0 |}.

Definition _generate_plan (self : agent) (question failure_info : string)
    : M (list pyvalue) :=
  let history_str :=
    match history self with
    | [] => "无"
    | _ => join nl (map (fun h => ("- 步骤: " ++ format_value (step h) ++ nl
                                    ++ "  结果: " ++ result h)%string) (history self))
    end in
  Planner_plan question history_str failure_info.

(** [f"{i+1}. {s}" for i, s in enumerate(plan)], from index [i]. *)
Fixpoint numbered (i : nat) (plan : list pyvalue) : list string :=
  match plan with
  | [] => []
  | s :: rest => (of_nat (i + 1) ++ ". " ++ format_value s)%string :: numbered (S i) rest
  end.

Definition _execute_step (self : agent) (question : string) (plan : list pyvalue)
    (current_step : pyvalue) : M string :=
  let history_str :=
    match history self with
    | [] => "无"
    | _ => join nl (map (fun h => ("步骤: " ++ format_value (step h) ++ nl
                                    ++ "结果: " ++ result h)%string) (history self))
    end in
  let plan_str := join nl (numbered 0 plan) in
  let prompt :=
    EXECUTOR_PROMPT_TEMPLATE question plan_str history_str (format_value current_step) in
  let* response := call_think prompt in
  let output := or_else response "" in
  let* _ := log (EvExecute current_step output) in
  ret output.

(** The four [return] statements of [run]. *)
Inductive outcome : Type :=
| InitialPlanFailed
| ReplanBudgetExhausted
| ReplanFailed
| Completed (final_answer : string).

(** The text [run] returns. *)
Definition outcome_text (o : outcome) : string :=
  match o with
  | InitialPlanFailed => "无法生成初始计划。"
  | ReplanBudgetExhausted => "达到最大重规划次数，任务失败。"
  | ReplanFailed => "重规划失败，无法生成新计划。"
  | Completed final_answer => final_answer
  end.

(** The local variables of [run] that live across iterations, with [self]. *)
Record run_state : Type := RunState {
  self : agent;
  plan : list pyvalue;
  step_index : nat;
  retry_count : nat
}.

(** How one turn of the [while] loop ends: back to the loop test, or out of
    [run] by a [return]. *)
Inductive flow : Type :=
| Continue (st : run_state)
| Return (o : outcome) (self' : agent).

(** [f"在执行步骤 '{current_step}' 时失败。\n执行结果/原因: {result}"] *)
Definition failure_info_of (current_step : pyvalue) (output : string) : string :=
  ("在执行步骤 '" ++ format_value current_step ++ "' 时失败。" ++ nl
   ++ "执行结果/原因: " ++ output)%string.

(** The block under [if evaluation == "FAILURE_REPLAN"]. *)
Definition replan (question : string) (st : run_state) (current_step : pyvalue)
    (output : string) : M flow :=
  let self1 := {| history := history (self st);
                  replan_count := replan_count (self st) + 1 |} in
  if (MAX_REPLANS <? replan_count self1)%nat then
    ret (Return ReplanBudgetExhausted self1)
  else
    let failure_info := failure_info_of current_step output in
    let* plan' := _generate_plan self1 question failure_info in
    match plan' with
    | [] => ret (Return ReplanFailed self1)
    | _ => ret (Continue {| self := self1; plan := plan';
                            step_index := 0; retry_count := 0 |})
    end.

(** [self.history[-1]["result"] if self.history else "未能完成任务"] *)
Definition final_answer_of (self : agent) : string :=
  match history self with
  | [] => "未能完成任务"
  | e :: rest => result (last rest e)
  end.

(** What [run] does with the evaluation of a step: the [if] / [elif] on
    [evaluation] and the [if] after them. *)
Definition on_evaluation (question : string) (st : run_state)
    (current_step : pyvalue) (output evaluation : string) : M flow :=
  if evaluation =? "SUCCESS" then
    ret (Continue
           {| self := {| history := history (self st)
                                      ++ [{| step := current_step; result := output |}];
                         replan_count := replan_count (self st) |};
              plan := plan st;
              step_index := step_index st + 1;
              retry_count := 0 |})
  else if evaluation =? "FAILURE_RETRY" then
    let retry_count' := retry_count st + 1 in
    let st' := {| self := self st; plan := plan st;
                  step_index := step_index st; retry_count := retry_count' |} in
    if (MAX_RETRIES <? retry_count')%nat then
      replan question st' current_step output   (* evaluation = "FAILURE_REPLAN" *)
    else
      ret (Continue st')                        (* continue *)
  else if evaluation =? "FAILURE_REPLAN" then
    replan question st current_step output
  else
    ret (Continue st).

(** The loop test and one pass through the body of the [while] loop. *)
Definition loop_body (question : string) (st : run_state) : M flow :=
  match nth_error (plan st) (step_index st) with
  | None =>                                   (* step_index >= len(plan) *)
      ret (Return (Completed (final_answer_of (self st))) (self st))
  | Some current_step =>
      let* output := _execute_step (self st) question (plan st) current_step in
      let* evaluation := Evaluator_evaluate question current_step output in
      on_evaluation question st current_step output evaluation
  end.

(** The [while] loop, run for at most [fuel] turns; [None] when the fuel
    runs out before a [return]. *)
Fixpoint while_loop (fuel : nat) (question : string) (st : run_state)
    : M (option (outcome * agent)) :=
  match fuel with
  | O => ret None
  | S fuel' =>
      let* fl := loop_body question st in
      match fl with
      | Return o self' => ret (Some (o, self'))
      | Continue st' => while_loop fuel' question st'
      end
  end.

(** [DynamicPlanAndSolveAgent.run], from the attributes the agent has when
    it is called. *)
Definition run (fuel : nat) (self0 : agent) (question : string)
    : M (option (outcome * agent)) :=
  let self1 := {| history := []; replan_count := 0 |} in
  let* plan0 := _generate_plan self1 question "无" in
  match plan0 with
  | [] => ret (Some (InitialPlanFailed, self1))
  | _ => while_loop fuel question
           {| self := self1; plan := plan0; step_index := 0; retry_count := 0 |}
  end.

(** ** Notions used to state the properties *)

(** The agent attributes a turn leaves behind. *)
Definition flow_self (fl : flow) : agent :=
  match fl with
  | Continue st => self st
  | Return _ self' => self'
  end.

(** The first half of a turn: the step under the cursor, the output of its
    execution, its evaluation, and the world after the two calls; [None] when
    the cursor is past the last step. *)
Definition turn (question : string) (st : run_state) (w : world)
    : option (pyvalue * string * string * world) :=
  match nth_error (plan st) (step_index st) with
  | None => None
  | Some current_step =>
      let (output, w1) := _execute_step (self st) question (plan st) current_step w in
      let (evaluation, w2) := Evaluator_evaluate question current_step output w1 in
      Some (current_step, output, evaluation, w2)
  end.

(** The world after the first half of a turn. *)
Definition turn_world (question : string) (st : run_state) (w : world) : world :=
  match turn question st w with
  | Some (_, _, _, w2) => w2
  | None => w
  end.

(** The evaluation is FAILURE_RETRY and the retries of the step are used up. *)
Definition escalated (question : string) (st : run_state) (w : world) : bool :=
  match turn question st w with
  | Some (_, _, evaluation, _) =>
      (evaluation =? "FAILURE_RETRY") && (MAX_RETRIES <? retry_count st + 1)%nat
  | None => false
  end.

(** The turn takes the FAILURE_REPLAN transition, directly or by escalation. *)
Definition replan_transition (question : string) (st : run_state) (w : world) : bool :=
  match turn question st w with
  | Some (_, _, evaluation, _) =>
      (evaluation =? "FAILURE_REPLAN") || escalated question st w
  | None => false
  end.

(** The entry a turn appends: one for a SUCCESS, none otherwise. *)
Definition appended (question : string) (st : run_state) (w : world) : list entry :=
  match turn question st w with
  | Some (current_step, output, evaluation, _) =>
      if evaluation =? "SUCCESS"
      then [{| step := current_step; result := output |}] else []
  | None => []
  end.

(** The states in which the loop test is reached, in order, for at most
    [fuel] turns. *)
Fixpoint turns (fuel : nat) (question : string) (st : run_state) (w : world)
    : list (run_state * world) :=
  match fuel with
  | O => []
  | S fuel' =>
      (st, w) ::
      match loop_body question st w with
      | (Continue st', w') => turns fuel' question st' w'
      | (Return _ _, _) => []
      end
  end.

(** The loop states of a whole [run]. *)
Definition run_turns (fuel : nat) (question : string) (w : world)
    : list (run_state * world) :=
  let self1 := {| history := []; replan_count := 0 |} in
  let (plan0, w0) := _generate_plan self1 question "无" w in
  match plan0 with
  | [] => []
  | _ => turns fuel question
           {| self := self1; plan := plan0; step_index := 0; retry_count := 0 |} w0
  end.

(** The entries that the SUCCESS evaluations of a trace stand for. *)
Fixpoint successes (t : list event) : list entry :=
  match t with
  | [] => []
  | EvEvaluate current_step output evaluation :: rest =>
      if evaluation =? "SUCCESS"
      then {| step := current_step; result := output |} :: successes rest
      else successes rest
  | _ :: rest => successes rest
  end.

(** How many executions come before the [n]-th evaluation of a trace
    ([n] counted from 1). *)
Fixpoint executions_before_evaluation (n : nat) (t : list event) : option nat :=
  match t with
  | [] => None
  | EvExecute _ _ :: rest => option_map S (executions_before_evaluation n rest)
  | EvEvaluate _ _ _ :: rest =>
      match n with
      | 0 => None
      | 1 => Some 0
      | S k => executions_before_evaluation k rest
      end
  | EvPlan _ _ _ :: rest => executions_before_evaluation n rest
  end.

(** A state with one more retry counted. *)
Definition retried (st : run_state) : run_state :=
  {| self := self st; plan := plan st; step_index := step_index st;
     retry_count := retry_count st + 1 |}.

(** The state after a SUCCESS: one more entry, the cursor one step on. *)
Definition advanced (st : run_state) (current_step : pyvalue) (output : string)
    : run_state :=
  {| self := {| history := history (self st)
                             ++ [{| step := current_step; result := output |}];
                replan_count := replan_count (self st) |};
     plan := plan st;
     step_index := step_index st + 1;
     retry_count := 0 |}.

(** The agent with one more replan counted. *)
Definition bumped (a : agent) : agent :=
  {| history := history a; replan_count := replan_count a + 1 |}.

(** The state at the start of a new plan. *)
Definition replanned (a : agent) (new_plan : list pyvalue) : run_state :=
  {| self := a; plan := new_plan; step_index := 0; retry_count := 0 |}.

(** The six ways through one turn of the loop: the flow and the world it
    ends with. *)
Inductive turn_spec (question : string) (st : run_state) (w : world)
    : flow -> world -> Prop :=
| TurnDone :
    turn question st w = None ->
    turn_spec question st w
      (Return (Completed (final_answer_of (self st))) (self st)) w
| TurnSuccess current_step output w2 :
    turn question st w = Some (current_step, output, "SUCCESS", w2) ->
    turn_spec question st w (Continue (advanced st current_step output)) w2
| TurnRetry current_step output w2 :
    turn question st w = Some (current_step, output, "FAILURE_RETRY", w2) ->
    retry_count st + 1 <= MAX_RETRIES ->
    turn_spec question st w (Continue (retried st)) w2
| TurnBudget current_step output evaluation w2 :
    turn question st w = Some (current_step, output, evaluation, w2) ->
    replan_transition question st w = true ->
    MAX_REPLANS < replan_count (self st) + 1 ->
    turn_spec question st w (Return ReplanBudgetExhausted (bumped (self st))) w2
| TurnReplanFailed current_step output evaluation w2 :
    turn question st w = Some (current_step, output, evaluation, w2) ->
    replan_transition question st w = true ->
    replan_count (self st) + 1 <= MAX_REPLANS ->
    fst (_generate_plan (bumped (self st)) question
           (failure_info_of current_step output) w2) = [] ->
    turn_spec question st w (Return ReplanFailed (bumped (self st)))
      (snd (_generate_plan (bumped (self st)) question
              (failure_info_of current_step output) w2))
| TurnReplanned current_step output evaluation w2 :
    turn question st w = Some (current_step, output, evaluation, w2) ->
    replan_transition question st w = true ->
    replan_count (self st) + 1 <= MAX_REPLANS ->
    fst (_generate_plan (bumped (self st)) question
           (failure_info_of current_step output) w2) <> [] ->
    turn_spec question st w
      (Continue (replanned (bumped (self st))
                   (fst (_generate_plan (bumped (self st)) question
                           (failure_info_of current_step output) w2))))
      (snd (_generate_plan (bumped (self st)) question
              (failure_info_of current_step output) w2)).

End Components.

(** ** A scripted platform, to run the agent on concrete conversations *)

Module Script.

(** The client answers from a list of prepared replies, whatever the prompt;
    [None] is a failed call, and so is every call after the last reply.  The
    replies of the scripts are ASCII texts, and [str.strip] and [str.upper]
    are taken as they are on such texts. *)
Definition think (replies : list (option string)) (prompt : string)
    : option string * list (option string) :=
  match replies with
  | [] => (None, [])
  | r :: rest => (r, rest)
  end.

(** [ast.literal_eval] on the literals the planner prompt asks for: lists
    (nested, with an optional trailing comma) of quoted texts without
    escapes, decimal integers, [True], [False] and [None].  Any other text
    gives [None] here. *)

Definition is_blank (c : ascii) : bool :=
  let n := nat_of_ascii c in
  Nat.eqb n 32 || Nat.eqb n 9 || Nat.eqb n 10 || Nat.eqb n 12 || Nat.eqb n 13.

Fixpoint skip_blank (s : string) : string :=
  match s with
  | String c t => if is_blank c then skip_blank t else s
  | EmptyString => EmptyString
  end.

Definition digit_of (c : ascii) : option Z :=
  let n := nat_of_ascii c in
  if Nat.leb 48 n && Nat.leb n 57 then Some (Z.of_nat (n - 48)) else None.

(** Reads the digits at the head of [s], with the number read so far. *)
Fixpoint read_digits (acc : Z) (s : string) : Z * string :=
  match s with
  | String c t =>
      match digit_of c with
      | Some d => read_digits (acc * 10 + d) t
      | None => (acc, s)
      end
  | EmptyString => (acc, s)
  end.

(** Reads a quoted text up to the closing [quote]; a backslash or a control
    character is outside the fragment. *)
Fixpoint read_quoted (quote : ascii) (s : string) : option (string * string) :=
  match s with
  | EmptyString => None
  | String c t =>
      if Ascii.eqb c quote then Some (EmptyString, t)
      else if Ascii.eqb c "\"%char || Nat.ltb (nat_of_ascii c) 32 then None
      else match read_quoted quote t with
           | Some (body, rest) => Some (String c body, rest)
           | None => None
           end
  end.

Fixpoint parse_value (fuel : nat) (s : string) : option (pyvalue * string) :=
  match fuel with
  | O => None
  | S fuel' =>
      match skip_blank s with
      | EmptyString => None
      | String c t =>
          if Ascii.eqb c "["%char then parse_items fuel' [] t
          else if Ascii.eqb c "'"%char || Ascii.eqb c (ascii_of_nat 34) then
            match read_quoted c t with
            | Some (body, rest) =>
                (* two literals side by side are outside the fragment *)
                match skip_blank rest with
                | String d _ =>
                    if Ascii.eqb d "'"%char || Ascii.eqb d (ascii_of_nat 34)
                    then None else Some (PyStr body, rest)
                | EmptyString => Some (PyStr body, rest)
                end
            | None => None
            end
          else if prefix "True" (String c t) then Some (PyBool true, PyStr.drop 4 (String c t))
          else if prefix "False" (String c t) then Some (PyBool false, PyStr.drop 5 (String c t))
          else if prefix "None" (String c t) then Some (PyNone, PyStr.drop 4 (String c t))
          else match digit_of c with
               | Some d =>
                   match d, t with
                   | 0%Z, String c' _ =>
                       match digit_of c' with
                       | Some _ => None           (* leading zero *)
                       | None => Some (PyInt 0, t)
                       end
                   | _, _ => let (z, rest) := read_digits d t in Some (PyInt z, rest)
                   end
               | None => None
               end
      end
  end
with parse_items (fuel : nat) (acc : list pyvalue) (s : string)
    : option (pyvalue * string) :=
  match fuel with
  | O => None
  | S fuel' =>
      match skip_blank s with
      | EmptyString => None
      | String c t =>
          if Ascii.eqb c "]"%char then Some (PyList (rev acc), t)
          else
            match parse_value fuel' (String c t) with
            | None => None
            | Some (v, rest) =>
                match skip_blank rest with
                | String d t' =>
                    if Ascii.eqb d ","%char then parse_items fuel' (v :: acc) t'
                    else if Ascii.eqb d "]"%char then Some (PyList (rev (v :: acc)), t')
                    else None
                | EmptyString => None
                end
            end
      end
  end.

Definition literal_eval (text : string) : option pyvalue :=
  match parse_value (2 * String.length text + 2) text with
  | Some (v, rest) =>
      match skip_blank rest with
      | EmptyString => Some v
      | _ => None
      end
  | None => None
  end.

(** [repr] of a text of the fragment. *)
Definition quote_text (s : string) : string :=
  if contains "'" s && negb (contains dq s)
  then (dq ++ s ++ dq)%string
  else ("'" ++ s ++ "'")%string.

(** [str(v)] *)
Fixpoint repr (v : pyvalue) : string :=
  match v with
  | PyNone => "None"
  | PyBool true => "True"
  | PyBool false => "False"
  | PyInt z => NilEmpty.string_of_int (Z.to_int z)
  | PyStr s => quote_text s
  | PyList items => ("[" ++ join ", " (map repr items) ++ "]")%string
  | PyTuple [item] => ("(" ++ repr item ++ ",)")%string
  | PyTuple items => ("(" ++ join ", " (map repr items) ++ ")")%string
  | PyOther source => source
  end.

Definition platform : Platform :=
  @Build_Platform (list (option string)) think literal_eval repr strip upper
    (fun s _ => eq_refl) (fun s _ => eq_refl).

(** The world before the first call. *)
Definition start (replies : list (option string)) : @world platform :=
  {| llm := (replies : @client platform); requests := []; trace := [] |}.

(** A reply that holds [body] in a block tagged [python]. *)
Definition python_block (body : string) : string :=
  ("```python" ++ nl ++ body ++ nl ++ "```")%string.

(** The same with a bare fence. *)
Definition bare_block (body : string) : string :=
  ("```" ++ nl ++ body ++ nl ++ "```")%string.

(** Three steps, each evaluated SUCCESS. *)
Definition happy_path : list (option string) :=
  [Some (python_block "['a', 'b', 'c']");
   Some "ra"; Some "SUCCESS";
   Some "rb"; Some "Success";
   Some "rc"; Some "SUCCESS"].

(** One step, evaluated FAILURE_RETRY three times; then a new plan of one
    step, evaluated SUCCESS. *)
Definition retry_exhaustion : list (option string) :=
  [Some (python_block "['b']");
   Some "r1"; Some "FAILURE_RETRY";
   Some "r2"; Some "FAILURE_RETRY";
   Some "r3"; Some "FAILURE_RETRY";
   Some (python_block "['c']");
   Some "rc"; Some "SUCCESS"].

(** Two steps; the second is evaluated FAILURE_RETRY twice, then SUCCESS. *)
Definition bounded_retry : list (option string) :=
  [Some (python_block "['a', 'b']");
   Some "ra"; Some "SUCCESS";
   Some "r1"; Some "FAILURE_RETRY";
   Some "r2"; Some "failure_retry";
   Some "r3"; Some "SUCCESS"].

(** Every first step is evaluated FAILURE_REPLAN. *)
Definition replan_forever : list (option string) :=
  [Some (python_block "['a']"); Some "ra"; Some "FAILURE_REPLAN";
   Some (python_block "['b']"); Some "rb"; Some "FAILURE_REPLAN";
   Some (python_block "['c']"); Some "rc"; Some "FAILURE_REPLAN";
   Some (python_block "['d']"); Some "rd"; Some "FAILURE_REPLAN";
   Some (python_block "['e']"); Some "re"; Some "SUCCESS"].

(** The state of [run] at the first turn of a plan. *)
Definition first_turn (new_plan : list pyvalue) : run_state :=
  replanned init new_plan.

(** The worlds of the three turns of [retry_exhaustion] on its step: after
    each execution and evaluation. *)
Definition retry_w0 : @world platform := start (tl retry_exhaustion).

Definition retry_w1 : @world platform :=
  turn_world "goal" (first_turn [PyStr "b"]) retry_w0.

Definition retry_w2 : @world platform :=
  turn_world "goal" (retried (first_turn [PyStr "b"])) retry_w1.

Definition retry_w3 : @world platform :=
  turn_world "goal" (retried (retried (first_turn [PyStr "b"]))) retry_w2.

(** A step evaluated FAILURE_REPLAN, and the plan that replaces its plan. *)
Definition replan_w0 : @world platform :=
  start [Some "ra"; Some "FAILURE_REPLAN"; Some (python_block "['b', 'c']")].

Definition replan_w2 : @world platform :=
  turn_world "goal" (first_turn [PyStr "a"]) replan_w0.

End Script.


(** ** BaseAgent: the client of [BaseAgent.py] *)

Module BaseAgent.

(** The settings [__init__] hands to [OpenAI(...)], with the model id. *)
Record config : Type := Config {
  model : string;
  api_key : string;
  base_url : string;
  timeout : Z
}.

(** The two [ValueError]s of [__init__]: the one [int()] raises on the text
    of LLM_TIMEOUT, and the one for a missing setting. *)
Inductive init_error : Type :=
| InvalidTimeout
| MissingSetting.

(** [arg or os.getenv(name)] for a text: [None] and the empty text are
    falsy. *)
Definition or_getenv (arg env : option string) : option string :=
  match arg with
  | Some (String c t) => Some (String c t)
  | _ => env
  end.

(** A setting that is not given: [None] or the empty text. *)
Definition blank (x : option string) : bool :=
  match x with
  | Some (String _ _) => false
  | _ => true
  end.

(** A text that [all([...])] accepts. *)
Definition truthy (x : option string) : option string :=
  match x with
  | Some (String c t) => Some (String c t)
  | _ => None
  end.

(** [BaseAgent.__init__].  [getenv] is [os.getenv] and [int] is the
    built-in applied to a text, [None] when it raises. *)
Definition __init__ (getenv : string -> option string) (int : string -> option Z)
    (model_arg apiKey baseUrl : option string) (timeout_arg : option Z)
    : init_error + config :=
  let model' := or_getenv model_arg (getenv "LLM_MODEL_ID") in
  let apiKey' := or_getenv apiKey (getenv "LLM_API_KEY") in
  let baseUrl' := or_getenv baseUrl (getenv "LLM_BASE_URL") in
  let timeout' :=
    match timeout_arg with
    | Some z => if Z.eqb z 0 then None else Some z
    | None => None
    end in
  let timeout'' :=
    match timeout' with
    | Some z => Some z
    | None =>
        match getenv "LLM_TIMEOUT" with
        | None => Some 60%Z               (* int(60) *)
        | Some text => int text
        end
    end in
  match timeout'' with
  | None => inl InvalidTimeout
  | Some z =>
      match truthy model', truthy apiKey', truthy baseUrl' with
      | Some m, Some k, Some u =>
          inr {| model := m; api_key := k; base_url := u; timeout := z |}
      | _, _, _ => inl MissingSetting
      end
  end.

(** A chunk of the streamed response: the [delta.content] of each of its
    choices. *)
Record chunk : Type := Chunk { choices : list (option string) }.

(** What the iteration over the response gives next: a chunk, or an
    exception. *)
Inductive item : Type :=
| Item (c : chunk)
| Failure.

(** The [for] loop of [think] from [collected_content]; [None] when an
    exception ends it. *)
Fixpoint collect (response : list item) (collected_content : list string)
    : option (list string) :=
  match response with
  | [] => Some collected_content
  | Failure :: _ => None
  | Item c :: rest =>
      match choices c with
      | [] => None                                  (* IndexError *)
      | content :: _ => collect rest (collected_content ++ [or_else content ""])
      end
  end.

(** [BaseAgent.think], from what [create] does: [None] when it raises, the
    stream of the response otherwise. *)
Definition think (created : option (list item)) : option string :=
  match created with
  | None => None
  | Some response =>
      match collect response [] with
      | Some collected_content => Some (join "" collected_content)
      | None => None
      end
  end.

(** The [delta.content] of the first choice of each chunk, when every item
    is a chunk with a choice. *)
Fixpoint first_contents (response : list item) : option (list (option string)) :=
  match response with
  | [] => Some []
  | Item (Chunk (content :: _)) :: rest =>
      option_map (cons content) (first_contents rest)
  | _ => None
  end.

End BaseAgent.

(** ** Notions for the traces and the loop states *)

(** [c] is one of the characters of [s]. *)
Fixpoint has_char (c : ascii) (s : string) : bool :=
  match s with
  | EmptyString => false
  | String d t => Ascii.eqb c d || has_char c t
  end.

(** The calls of the Planner in a trace. *)
Fixpoint count_plans (t : list event) : nat :=
  match t with
  | [] => 0
  | EvPlan _ _ _ :: rest => S (count_plans rest)
  | _ :: rest => count_plans rest
  end.

(** The executions in a trace. *)
Fixpoint count_executions (t : list event) : nat :=
  match t with
  | [] => 0
  | EvExecute _ _ :: rest => S (count_executions rest)
  | _ :: rest => count_executions rest
  end.

(** A trace in which every execution is followed at once by the evaluation
    of the same step and output, and nothing is evaluated otherwise. *)
Inductive cycles : list event -> Prop :=
| cycles_nil : cycles []
| cycles_plan history_str failure_info new_plan t :
    cycles t -> cycles (EvPlan history_str failure_info new_plan :: t)
| cycles_step current_step output evaluation t :
    cycles t ->
    cycles (EvExecute current_step output
            :: EvEvaluate current_step output evaluation :: t).

(** 1 for the return on an exhausted replan budget, 0 for the others. *)
Definition exhausted (o : outcome) : nat :=
  match o with
  | ReplanBudgetExhausted => 1
  | _ => 0
  end.

(** Every turn of the list that evaluates a step evaluates it SUCCESS. *)
Definition all_success {P : Platform} (question : string)
    (l : list (run_state * world)) : bool :=
  forallb (fun t => match turn question (fst t) (snd t) with
                    | Some (_, _, evaluation, _) => evaluation =? "SUCCESS"
                    | None => true
                    end) l.

(** What holds of the state each time the loop test is reached. *)
Definition loop_invariant (st : run_state) : Prop :=
  plan st <> []
  /\ step_index st <= length (plan st)
  /\ retry_count st <= MAX_RETRIES
  /\ replan_count (self st) <= MAX_REPLANS
  /\ step_index st <= length (history (self st)).

(** * Properties *)

(** ** Facts about the string operations *)

Section StringFacts.

Lemma prefix_true_iff (pat s : string) :
  prefix pat s = true <-> exists post, s = (pat ++ post)%string.
Proof.
  revert s. induction pat as [|a pat IH]; intros s.
  - split; [intros _; now exists s | intros _; now destruct s].
  - destruct s as [|b s]; simpl.
    + split; [discriminate | intros [post H]; discriminate].
    + destruct (Ascii.ascii_dec a b) as [->|Hab].
      * rewrite IH. split; intros [post H]; exists post.
        -- now rewrite H.
        -- now injection H.
      * split; [discriminate|]. intros [post H]. injection H as H1 _. congruence.
Qed.

Lemma contains_occurs (pat s : string) :
  contains pat s = true <-> occurs pat s.
Proof.
  unfold occurs. induction s as [|c s IH].
  - cbn [contains]. rewrite orb_false_r, prefix_true_iff. split.
    + intros [post H]. now exists EmptyString, post.
    + intros [pre [post H]]. destruct pre; simpl in H.
      * now exists post.
      * discriminate.
  - cbn [contains]. rewrite orb_true_iff, prefix_true_iff, IH. split.
    + intros [[post H] | [pre [post H]]].
      * now exists EmptyString, post.
      * exists (String c pre), post. simpl. now rewrite H.
    + intros [pre [post H]]. destruct pre as [|d pre]; simpl in H.
      * left. now exists post.
      * right. injection H as _ H. now exists pre, post.
Qed.

Lemma split_go_without_sep (sep s : string) :
  contains sep s = false -> split_go sep 0 s = (s, []).
Proof.
  induction s as [|c s IH]; intros H.
  - reflexivity.
  - cbn [contains] in H. apply orb_false_iff in H as [Hp Hc].
    cbn [split_go]. rewrite Hp, (IH Hc). reflexivity.
Qed.

Lemma split_without_sep (sep s : string) :
  contains sep s = false -> split sep s = [s].
Proof.
  intros H. unfold split. now rewrite split_go_without_sep.
Qed.

Lemma upper_app (a b : string) :
  upper (a ++ b) = (upper a ++ upper b)%string.
Proof.
  induction a as [|c a IH]; simpl; [reflexivity | now rewrite IH].
Qed.

Lemma upper_app_inv (a b s : string) :
  upper s = (a ++ b)%string ->
  exists s1 s2, s = (s1 ++ s2)%string /\ upper s1 = a /\ upper s2 = b.
Proof.
  revert s. induction a as [|c a IH]; intros s H.
  - exists EmptyString, s. auto.
  - destruct s as [|d s]; simpl in H; [discriminate|].
    injection H as Hc H. destruct (IH _ H) as (s1 & s2 & -> & H1 & H2).
    exists (String d s1), s2. simpl. now rewrite Hc, H1.
Qed.

Lemma upper_char_same_letter (c d : ascii) :
  upper_char d = d -> (upper_char c = d <-> same_letter c d).
Proof.
  unfold upper_char, same_letter. cbv zeta.
  pose proof (nat_ascii_bounded c) as Bc. pose proof (nat_ascii_bounded d) as Bd.
  intros Hd.
  assert (Nat.leb 97 (nat_of_ascii d) && Nat.leb (nat_of_ascii d) 122 = false) as Rd.
  { destruct (Nat.leb 97 (nat_of_ascii d) && Nat.leb (nat_of_ascii d) 122) eqn:E;
      [|reflexivity].
    apply andb_true_iff in E as [E1 E2]. apply Nat.leb_le in E1, E2.
    apply (f_equal nat_of_ascii) in Hd. rewrite nat_ascii_embedding in Hd; lia. }
  apply andb_false_iff in Rd.
  destruct (Nat.leb 97 (nat_of_ascii c) && Nat.leb (nat_of_ascii c) 122) eqn:Rc.
  - apply andb_true_iff in Rc as [E1 E2]. apply Nat.leb_le in E1, E2. split.
    + intros H. right. exists (nat_of_ascii c - 97). split; [lia|]. right.
      apply (f_equal nat_of_ascii) in H. rewrite nat_ascii_embedding in H; lia.
    + intros [-> | (k & Hk & [[H1 H2] | [H1 H2]])].
      * destruct Rd as [R | R]; apply Nat.leb_gt in R; lia.
      * lia.
      * replace (nat_of_ascii c - 32) with (nat_of_ascii d) by lia.
        apply ascii_nat_embedding.
  - apply andb_false_iff in Rc. split.
    + intros ->. now left.
    + intros [-> | (k & Hk & [[H1 H2] | [H1 H2]])].
      * reflexivity.
      * destruct Rd as [R | R]; apply Nat.leb_gt in R; lia.
      * destruct Rc as [R | R]; apply Nat.leb_gt in R; lia.
Qed.

Lemma upper_same_text (pat mid : string) :
  upper pat = pat -> (upper mid = pat <-> same_text mid pat).
Proof.
  revert mid. induction pat as [|d pat IH]; intros [|c mid] Hpat; cbn [upper same_text].
  - tauto.
  - split; [discriminate | contradiction].
  - split; [discriminate | contradiction].
  - cbn [upper] in Hpat. injection Hpat as Hd Hpat.
    rewrite <- (IH mid Hpat), <- (upper_char_same_letter c Hd). split.
    + intros H. now injection H.
    + intros [-> ->]. reflexivity.
Qed.

(** [pat in s.upper()], for an ASCII text and a pattern in upper case, is
    the search of [pat] in [s] without regard to case. *)
Lemma contains_upper_anycase (pat s : string) :
  upper pat = pat ->
  (contains pat (upper s) = true <-> occurs_anycase pat s).
Proof.
  intros Hpat. rewrite contains_occurs. unfold occurs, occurs_anycase. split.
  - intros (pre & post & H).
    apply upper_app_inv in H as (s1 & s23 & -> & H1 & H).
    apply upper_app_inv in H as (s2 & s3 & -> & H2 & H3).
    exists s1, s2, s3. split; [reflexivity | now apply upper_same_text].
  - intros (pre & mid & post & -> & H). apply (upper_same_text _ Hpat) in H.
    exists (upper pre), (upper post). rewrite !upper_app. congruence.
Qed.

Lemma or_else_empty (x : option string) :
  or_else x "" = match x with Some s => s | None => "" end.
Proof.
  destruct x as [[|c t]|]; reflexivity.
Qed.

End StringFacts.

(** ** Planner *)

Section PlannerFacts.

Context {P : Platform}.

Lemma parse_plan_without_tag (response_text : string) :
  contains "```python" response_text = false -> parse_plan response_text = [].
Proof.
  intros H. unfold parse_plan. now rewrite (split_without_sep _ _ H).
Qed.

Lemma Planner_plan_value (question history_str failure_info : string) (w : world) :
  fst (Planner_plan question history_str failure_info w)
  = parse_plan
      (or_else (fst (think (llm w)
                       (PLANNER_PROMPT_TEMPLATE question history_str failure_info))) "").
Proof.
  unfold Planner_plan, bind, call_think, log, ret.
  destruct (think _ _). reflexivity.
Qed.

(** Whatever the reply, the plan is empty or it is the list the fenced
    literal evaluates to. *)
Lemma parse_plan_cases (response_text : string) :
  parse_plan response_text = [] \/
  exists after_tag block,
    nth_error (split "```python" response_text) 1 = Some after_tag /\
    nth_error (split "```" after_tag) 0 = Some block /\
    literal_eval (str_strip block) = Some (PyList (parse_plan response_text)).
Proof.
  unfold parse_plan.
  destruct (nth_error (split "```python" response_text) 1) as [after_tag|];
    [|now left].
  destruct (nth_error (split "```" after_tag) 0) as [block|] eqn:B; [|now left].
  destruct (literal_eval (str_strip block)) as [[| | | |items| |]|] eqn:E;
    try (left; reflexivity).
  right. exists after_tag, block. auto.
Qed.

(** C10, as the code has it.  [Planner.plan] finds the plan only behind the
    tag [```python]: a reply that holds a fenced block with a valid literal
    list, but in which that tag occurs nowhere (its only fence a bare one,
    say), gives the empty plan. *)
Theorem C10_plan_requires_python_tag
    (question history_str failure_info : string) (w : world)
    (reply pre block post : string) (items : list pyvalue) :
  fst (think (llm w) (PLANNER_PROMPT_TEMPLATE question history_str failure_info))
    = Some reply ->
  reply = (pre ++ "```" ++ block ++ "```" ++ post)%string ->
  literal_eval (str_strip block) = Some (PyList items) ->
  contains "```python" reply = false ->
  fst (Planner_plan question history_str failure_info w) = [].
Proof.
  intros Hreply _ _ Htag.
  rewrite Planner_plan_value, Hreply.
  apply parse_plan_without_tag.
  destruct reply; [reflexivity | exact Htag].
Qed.

End PlannerFacts.

(** ** Evaluator *)

Section EvaluatorFacts.

Context {P : Platform}.

Lemma classify_range (response_text : string) :
  classify response_text = "SUCCESS" \/
  classify response_text = "FAILURE_RETRY" \/
  classify response_text = "FAILURE_REPLAN".
Proof.
  unfold classify.
  destruct (contains "SUCCESS" _); [now left|].
  destruct (contains "FAILURE_RETRY" _); [right; now left | right; now right].
Qed.

(** The classification, read on the upper-case form of the reply. *)
Lemma classify_upper_spec (response_text : string) :
  (classify response_text = "SUCCESS"
   /\ occurs "SUCCESS" (str_upper response_text))
  \/ (classify response_text = "FAILURE_RETRY"
      /\ ~ occurs "SUCCESS" (str_upper response_text)
      /\ occurs "FAILURE_RETRY" (str_upper response_text))
  \/ (classify response_text = "FAILURE_REPLAN"
      /\ ~ occurs "SUCCESS" (str_upper response_text)
      /\ ~ occurs "FAILURE_RETRY" (str_upper response_text)).
Proof.
  unfold classify.
  pose proof (contains_occurs "SUCCESS" (str_upper response_text)) as HS.
  pose proof (contains_occurs "FAILURE_RETRY" (str_upper response_text)) as HR.
  destruct (contains "SUCCESS" (str_upper response_text)).
  - left. split; [reflexivity | now apply HS].
  - right. assert (~ occurs "SUCCESS" (str_upper response_text)) as NS.
    { intros H. apply HS in H. discriminate. }
    destruct (contains "FAILURE_RETRY" (str_upper response_text)).
    + left. repeat split; [exact NS | now apply HR].
    + right. repeat split; [exact NS |]. intros H. apply HR in H. discriminate.
Qed.

(** The classification of an ASCII reply, read on the reply itself. *)
Lemma classify_ascii_spec (response_text : string) :
  is_ascii response_text = true ->
  (classify response_text = "SUCCESS"
   /\ occurs_anycase "SUCCESS" response_text)
  \/ (classify response_text = "FAILURE_RETRY"
      /\ ~ occurs_anycase "SUCCESS" response_text
      /\ occurs_anycase "FAILURE_RETRY" response_text)
  \/ (classify response_text = "FAILURE_REPLAN"
      /\ ~ occurs_anycase "SUCCESS" response_text
      /\ ~ occurs_anycase "FAILURE_RETRY" response_text).
Proof.
  intros Hascii. unfold classify. rewrite (str_upper_ascii _ Hascii).
  pose proof (@contains_upper_anycase "SUCCESS" response_text eq_refl) as HS.
  pose proof (@contains_upper_anycase "FAILURE_RETRY" response_text eq_refl) as HR.
  destruct (contains "SUCCESS" (upper response_text)).
  - left. split; [reflexivity | now apply HS].
  - right. assert (~ occurs_anycase "SUCCESS" response_text) as NS.
    { intros H. apply HS in H. discriminate. }
    destruct (contains "FAILURE_RETRY" (upper response_text)).
    + left. repeat split; [exact NS | now apply HR].
    + right. repeat split; [exact NS |]. intros H. apply HR in H. discriminate.
Qed.

Lemma classify_default : classify "FAILURE_REPLAN" = "FAILURE_REPLAN".
Proof.
  unfold classify. rewrite (str_upper_ascii "FAILURE_REPLAN" eq_refl). reflexivity.
Qed.

Lemma Evaluator_evaluate_value (question : string) (current_step : pyvalue)
    (output : string) (w : world) :
  fst (Evaluator_evaluate question current_step output w)
  = classify
      (or_else (fst (think (llm w)
                       (EVALUATOR_PROMPT_TEMPLATE question
                          (format_value current_step) output)))
         "FAILURE_REPLAN").
Proof.
  unfold Evaluator_evaluate, bind, call_think, log, ret.
  destruct (think _ _). reflexivity.
Qed.

Lemma Evaluator_evaluate_range (question : string) (current_step : pyvalue)
    (output : string) (w : world) :
  let evaluation := fst (Evaluator_evaluate question current_step output w) in
  evaluation = "SUCCESS" \/ evaluation = "FAILURE_RETRY"
  \/ evaluation = "FAILURE_REPLAN".
Proof.
  cbv zeta. rewrite Evaluator_evaluate_value. apply classify_range.
Qed.

(** C3. [Evaluator.evaluate] classifies the reply of the client by what its
    upper-case form contains: SUCCESS if it contains SUCCESS; otherwise
    FAILURE_RETRY if it contains FAILURE_RETRY; otherwise FAILURE_REPLAN.  For
    a reply of ASCII characters this is the search of the two words in the
    reply itself without regard to the case of its letters.  A client that
    yields nothing, or the empty text, gives FAILURE_REPLAN.  The value is
    always one of the three. *)
Theorem C3_evaluate_classification
    (question : string) (current_step : pyvalue) (output : string) (w : world) :
  let response :=
    fst (think (llm w)
           (EVALUATOR_PROMPT_TEMPLATE question (format_value current_step) output)) in
  let evaluation := fst (Evaluator_evaluate question current_step output w) in
  (forall text, response = Some text -> text <> "" ->
     (evaluation = "SUCCESS"
      /\ occurs "SUCCESS" (str_upper text))
     \/ (evaluation = "FAILURE_RETRY"
         /\ ~ occurs "SUCCESS" (str_upper text)
         /\ occurs "FAILURE_RETRY" (str_upper text))
     \/ (evaluation = "FAILURE_REPLAN"
         /\ ~ occurs "SUCCESS" (str_upper text)
         /\ ~ occurs "FAILURE_RETRY" (str_upper text)))
  /\ (forall text, response = Some text -> text <> "" -> is_ascii text = true ->
        (evaluation = "SUCCESS"
         /\ occurs_anycase "SUCCESS" text)
        \/ (evaluation = "FAILURE_RETRY"
            /\ ~ occurs_anycase "SUCCESS" text
            /\ occurs_anycase "FAILURE_RETRY" text)
        \/ (evaluation = "FAILURE_REPLAN"
            /\ ~ occurs_anycase "SUCCESS" text
            /\ ~ occurs_anycase "FAILURE_RETRY" text))
  /\ (response = None \/ response = Some "" -> evaluation = "FAILURE_REPLAN")
  /\ (evaluation = "SUCCESS" \/ evaluation = "FAILURE_RETRY"
      \/ evaluation = "FAILURE_REPLAN").
Proof.
  cbv zeta. rewrite Evaluator_evaluate_value.
  split; [|split; [|split]].
  - intros text -> Hne. destruct text; [contradiction|]. apply classify_upper_spec.
  - intros text -> Hne Hascii. destruct text; [contradiction|].
    now apply classify_ascii_spec.
  - intros [-> | ->]; apply classify_default.
  - apply classify_range.
Qed.

End EvaluatorFacts.

(** ** The calls of the components, as changes of the world *)

Section CallFacts.

Context {P : Platform}.

Lemma execute_step_run (self0 : agent) (question : string) (plan0 : list pyvalue)
    (current_step : pyvalue) (w : world) :
  exists history_str,
    let prompt :=
      EXECUTOR_PROMPT_TEMPLATE question (join nl (numbered 0 plan0)) history_str
        (format_value current_step) in
    let output := or_else (fst (think (llm w) prompt)) "" in
    _execute_step self0 question plan0 current_step w
    = (output,
       {| llm := snd (think (llm w) prompt);
          requests := requests w ++ [prompt];
          trace := trace w ++ [EvExecute current_step output] |}).
Proof.
  unfold _execute_step, bind, call_think, log, ret.
  match goal with
  | |- context [think _ (EXECUTOR_PROMPT_TEMPLATE _ _ ?h _)] => exists h
  end.
  cbv zeta. destruct (think _ _). reflexivity.
Qed.

Lemma evaluate_run (question : string) (current_step : pyvalue) (output : string)
    (w : world) :
  exists prompt,
    let evaluation :=
      classify (or_else (fst (think (llm w) prompt)) "FAILURE_REPLAN") in
    Evaluator_evaluate question current_step output w
    = (evaluation,
       {| llm := snd (think (llm w) prompt);
          requests := requests w ++ [prompt];
          trace := trace w ++ [EvEvaluate current_step output evaluation] |}).
Proof.
  unfold Evaluator_evaluate, bind, call_think, log, ret.
  match goal with |- context [think _ ?p] => exists p end.
  cbv zeta. destruct (think _ _). reflexivity.
Qed.

Lemma generate_plan_run (self0 : agent) (question failure_info : string) (w : world) :
  exists prompt history_str,
    let new_plan := parse_plan (or_else (fst (think (llm w) prompt)) "") in
    _generate_plan self0 question failure_info w
    = (new_plan,
       {| llm := snd (think (llm w) prompt);
          requests := requests w ++ [prompt];
          trace := trace w ++ [EvPlan history_str failure_info new_plan] |}).
Proof.
  unfold _generate_plan, Planner_plan, bind, call_think, log, ret.
  match goal with |- context [think _ (PLANNER_PROMPT_TEMPLATE ?q ?h ?f)] =>
    exists (PLANNER_PROMPT_TEMPLATE q h f), h end.
  cbv zeta. destruct (think _ _). reflexivity.
Qed.

Lemma generate_plan_request (self0 : agent) (question failure_info : string)
    (w : world) :
  exists history_str new_plan,
    snd (_generate_plan self0 question failure_info w)
    = {| llm := snd (think (llm w)
                       (PLANNER_PROMPT_TEMPLATE question history_str failure_info));
         requests := requests w
                     ++ [PLANNER_PROMPT_TEMPLATE question history_str failure_info];
         trace := trace w ++ [EvPlan history_str failure_info new_plan] |}.
Proof.
  unfold _generate_plan, Planner_plan, bind, call_think, log, ret.
  match goal with |- context [think _ (PLANNER_PROMPT_TEMPLATE ?q ?h ?f)] =>
    exists h end.
  destruct (think _ _). cbn [snd fst]. eauto.
Qed.

Lemma generate_plan_trace (self0 : agent) (question failure_info : string) (w : world) :
  exists history_str,
    trace (snd (_generate_plan self0 question failure_info w))
    = trace w
      ++ [EvPlan history_str failure_info
            (fst (_generate_plan self0 question failure_info w))].
Proof.
  destruct (generate_plan_run self0 question failure_info w) as (prompt & h & E).
  cbv zeta in E. exists h. rewrite E. reflexivity.
Qed.

(** What the first half of a turn leaves: an evaluation among the three, and
    two more events. *)
Lemma turn_Some (question : string) (st : run_state) (w : world)
    (current_step : pyvalue) (output evaluation : string) (w2 : world) :
  turn question st w = Some (current_step, output, evaluation, w2) ->
  nth_error (plan st) (step_index st) = Some current_step
  /\ (evaluation = "SUCCESS" \/ evaluation = "FAILURE_RETRY"
      \/ evaluation = "FAILURE_REPLAN")
  /\ trace w2 = trace w ++ [EvExecute current_step output;
                            EvEvaluate current_step output evaluation].
Proof.
  unfold turn. destruct (nth_error _ _) as [cs|]; [|discriminate].
  destruct (execute_step_run (self st) question (plan st) cs w) as (p1 & E1).
  cbv zeta in E1. rewrite E1.
  match goal with |- context [Evaluator_evaluate ?q ?c ?o ?w1] =>
    destruct (evaluate_run q c o w1) as (p2 & E2) end.
  cbv zeta in E2. rewrite E2. intros H. injection H as <- <- <- <-.
  split; [reflexivity|]. split; [apply classify_range|].
  cbn [trace]. now rewrite <- app_assoc.
Qed.

Lemma loop_body_turn (question : string) (st : run_state) (w : world) :
  loop_body question st w =
  match turn question st w with
  | None => (Return (Completed (final_answer_of (self st))) (self st), w)
  | Some (current_step, output, evaluation, w2) =>
      on_evaluation question st current_step output evaluation w2
  end.
Proof.
  unfold loop_body, turn, bind.
  destruct (nth_error _ _) as [cs|]; [|reflexivity].
  destruct (_execute_step _ _ _ _ _) as [output w1].
  destruct (Evaluator_evaluate _ _ _ _) as [evaluation w2]. reflexivity.
Qed.

(** The replan block, case by case. *)
Lemma replan_cases (question : string) (st : run_state) (current_step : pyvalue)
    (output : string) (w : world) :
  let self1 := {| history := history (self st);
                  replan_count := replan_count (self st) + 1 |} in
  let planned :=
    _generate_plan self1 question (failure_info_of current_step output) w in
  (MAX_REPLANS < replan_count (self st) + 1
   /\ replan question st current_step output w = (Return ReplanBudgetExhausted self1, w))
  \/ (replan_count (self st) + 1 <= MAX_REPLANS /\ fst planned = []
      /\ replan question st current_step output w = (Return ReplanFailed self1, snd planned))
  \/ (replan_count (self st) + 1 <= MAX_REPLANS /\ fst planned <> []
      /\ replan question st current_step output w
         = (Continue {| self := self1; plan := fst planned;
                        step_index := 0; retry_count := 0 |}, snd planned)).
Proof.
  cbv zeta. unfold replan, bind, ret. cbn [replan_count history].
  destruct (Nat.ltb_spec MAX_REPLANS (replan_count (self st) + 1)) as [Hlt|Hle].
  - left. auto.
  - right. destruct (_generate_plan _ _ _ _) as [[|s rest] w3]; cbn [fst snd].
    + left. auto.
    + right. repeat split; [exact Hle | discriminate].
Qed.

End CallFacts.

(** ** One turn of the loop *)

Section TurnFacts.

Context {P : Platform}.

Lemma replan_transition_direct (question : string) (st : run_state) (w : world)
    (current_step : pyvalue) (output : string) (w2 : world) :
  turn question st w = Some (current_step, output, "FAILURE_REPLAN", w2) ->
  replan_transition question st w = true.
Proof. intros T. unfold replan_transition. now rewrite T. Qed.

Lemma replan_transition_escalated (question : string) (st : run_state) (w : world)
    (current_step : pyvalue) (output : string) (w2 : world) :
  turn question st w = Some (current_step, output, "FAILURE_RETRY", w2) ->
  MAX_RETRIES < retry_count st + 1 ->
  replan_transition question st w = true.
Proof.
  intros T H. unfold replan_transition, escalated. rewrite T.
  apply Nat.ltb_lt in H. rewrite H. reflexivity.
Qed.

Lemma replan_spec (question : string) (st st0 : run_state) (w : world)
    (current_step : pyvalue) (output evaluation : string) (w2 : world) :
  turn question st w = Some (current_step, output, evaluation, w2) ->
  replan_transition question st w = true ->
  self st0 = self st ->
  let (fl, w') := replan question st0 current_step output w2 in
  turn_spec question st w fl w'.
Proof.
  intros T R E.
  destruct (replan_cases question st0 current_step output w2)
    as [(H & ->) | [(H & Hp & ->) | (H & Hp & ->)]];
    rewrite E in *; fold (bumped (self st)) in *.
  - eapply TurnBudget; eauto.
  - eapply TurnReplanFailed; eauto.
  - eapply TurnReplanned; eauto.
Qed.

(** Every turn goes one of the six ways. *)
Lemma loop_body_spec (question : string) (st : run_state) (w : world) :
  turn_spec question st w (fst (loop_body question st w))
    (snd (loop_body question st w)).
Proof.
  rewrite loop_body_turn.
  destruct (turn question st w) as [[[[cs output] evaluation] w2]|] eqn:T.
  - destruct (turn_Some _ _ _ T) as (_ & [-> | [-> | ->]] & _);
      unfold on_evaluation; cbn [String.eqb Ascii.eqb Bool.eqb andb].
    + cbn [fst snd ret]. eapply TurnSuccess; eauto.
    + destruct (Nat.ltb_spec MAX_RETRIES (retry_count st + 1)) as [Hlt|Hle].
      * pose proof (replan_transition_escalated _ _ _ T Hlt) as R.
        pose proof (@replan_spec question st
                      {| self := self st; plan := plan st;
                         step_index := step_index st;
                         retry_count := retry_count st + 1 |}
                      w cs output _ w2 T R eq_refl) as H.
        destruct (replan _ _ _ _ _). exact H.
      * cbn [fst snd ret]. eapply TurnRetry; eauto.
    + pose proof (replan_transition_direct _ _ _ T) as R.
      pose proof (@replan_spec question st st w cs output _ w2 T R eq_refl) as H.
      destruct (replan _ _ _ _ _). exact H.
  - cbn [fst snd]. now apply TurnDone.
Qed.

End TurnFacts.

(** ** The loop as a sequence of turns *)

(** Case analysis on the way the turn from [st] and [w] goes. *)
Ltac turn_cases q st w :=
  generalize (loop_body_spec q st w);
  destruct (loop_body q st w) as [?fl ?w1];
  cbn [fst snd];
  let H := fresh "Hturn" in intros H; destruct H.

(** Computes [replan_transition] from the equation [T] of the turn. *)
Ltac no_transition T :=
  unfold replan_transition, escalated; rewrite T;
  cbn [String.eqb Ascii.eqb Bool.eqb andb orb].

Section LoopFacts.

Context {P : Platform}.

Lemma while_loop_S (fuel : nat) (question : string) (st : run_state) (w : world) :
  while_loop (S fuel) question st w =
  match loop_body question st w with
  | (Return o self', w') => (Some (o, self'), w')
  | (Continue st', w') => while_loop fuel question st' w'
  end.
Proof.
  cbn [while_loop]. unfold bind.
  destruct (loop_body question st w) as [[st'|o a] w']; reflexivity.
Qed.

Lemma run_unfold (fuel : nat) (self0 : agent) (question : string) (w : world) :
  run fuel self0 question w =
  let self1 := {| history := []; replan_count := 0 |} in
  match _generate_plan self1 question "无" w with
  | ([], w0) => (Some (InitialPlanFailed, self1), w0)
  | (plan0, w0) => while_loop fuel question (replanned self1 plan0) w0
  end.
Proof.
  unfold run, bind. cbv zeta.
  destruct (_generate_plan _ _ _ _) as [[|s rest] w0]; reflexivity.
Qed.

(** From any turn of the loop on, the loop is the loop started there. *)
Lemma turns_tail (question : string) (fuel i : nat) (st : run_state) (w : world)
    (sti : run_state) (wi : world) :
  nth_error (turns fuel question st w) i = Some (sti, wi) ->
  exists fuel',
    (forall k, nth_error (turns fuel question st w) (i + k)
               = nth_error (turns fuel' question sti wi) k)
    /\ while_loop fuel question st w = while_loop fuel' question sti wi.
Proof.
  revert i st w. induction fuel as [|fuel IH]; intros i st w H.
  - destruct i; discriminate.
  - destruct i as [|i].
    + injection H as <- <-. exists (S fuel). auto.
    + rewrite while_loop_S. cbn [turns nth_error Nat.add] in H |- *.
      destruct (loop_body question st w) as [[st'|o a] w1].
      * destruct (IH _ _ _ H) as (fuel' & Hk & Hw).
        exists fuel'. split; [exact Hk | exact Hw].
      * destruct i; discriminate.
Qed.

Section Preserved.

(** A relation between the attributes of the agent that every turn keeps
    holds between any two points of the loop. *)
Variable R : agent -> agent -> Prop.
Variable question : string.
Hypothesis R_refl : forall a, R a a.
Hypothesis R_trans : forall a b c, R a b -> R b c -> R a c.
Hypothesis R_turn :
  forall st w, R (self st) (flow_self (fst (loop_body question st w))).

Lemma while_loop_preserves (fuel : nat) (st : run_state) (w : world)
    (o : outcome) (a : agent) (w' : world) :
  while_loop fuel question st w = (Some (o, a), w') -> R (self st) a.
Proof.
  revert st w. induction fuel as [|fuel IH]; intros st w H.
  - discriminate.
  - rewrite while_loop_S in H. pose proof (R_turn st w) as Hstep.
    destruct (loop_body question st w) as [[st'|o1 a1] w1]; cbn [fst flow_self] in Hstep.
    + eapply R_trans; [exact Hstep | eapply IH; eauto].
    + now injection H as <- <- <-.
Qed.

Lemma turns_preserve (fuel j : nat) (st : run_state) (w : world)
    (stj : run_state) (wj : world) :
  nth_error (turns fuel question st w) j = Some (stj, wj) -> R (self st) (self stj).
Proof.
  revert j st w. induction fuel as [|fuel IH]; intros j st w H.
  - destruct j; discriminate.
  - destruct j as [|j]; cbn [turns nth_error] in H.
    + injection H as <- <-. apply R_refl.
    + pose proof (R_turn st w) as Hstep.
      destruct (loop_body question st w) as [[st'|o1 a1] w1]; cbn [fst flow_self] in Hstep.
      * eapply R_trans; [exact Hstep | eapply IH; eauto].
      * destruct j; discriminate.
Qed.

(** Between two turns [i <= j] of one loop, and from there to its end. *)
Lemma turns_ordered (fuel i j : nat) (st : run_state) (w : world)
    (sti stj : run_state) (wi wj : world) (o : outcome) (a : agent) (w' : world) :
  while_loop fuel question st w = (Some (o, a), w') ->
  i <= j ->
  nth_error (turns fuel question st w) i = Some (sti, wi) ->
  nth_error (turns fuel question st w) j = Some (stj, wj) ->
  R (self sti) (self stj) /\ R (self stj) a.
Proof.
  intros Hrun Hij Hi Hj. split.
  - destruct (turns_tail _ _ _ _ _ Hi) as (fuel' & Hk & _).
    replace j with (i + (j - i)) in Hj by lia. rewrite Hk in Hj.
    eapply turns_preserve; eauto.
  - destruct (turns_tail _ _ _ _ _ Hj) as (fuel' & _ & Hw).
    rewrite Hw in Hrun. eapply while_loop_preserves; eauto.
Qed.

End Preserved.

End LoopFacts.

(** ** The replan counter *)

Section ReplanCounter.

Context {P : Platform}.

Lemma replan_count_turn (question : string) (st : run_state) (w : world) :
  replan_count (flow_self (fst (loop_body question st w)))
  = replan_count (self st) + (if replan_transition question st w then 1 else 0).
Proof.
  turn_cases question st w; cbn [flow_self self advanced retried replanned bumped replan_count].
  - unfold replan_transition. rewrite H. lia.
  - no_transition H. lia.
  - no_transition H. destruct (Nat.ltb_spec MAX_RETRIES (retry_count st + 1)); lia.
  - rewrite H0. reflexivity.
  - rewrite H0. reflexivity.
  - rewrite H0. reflexivity.
Qed.

Lemma budget_turn (question : string) (st : run_state) (w : world) :
  (exists a, fst (loop_body question st w) = Return ReplanBudgetExhausted a)
  <-> replan_transition question st w = true
      /\ MAX_REPLANS < replan_count (self st) + 1.
Proof.
  turn_cases question st w.
  - split; [intros [a E]; discriminate|]. intros [H1 _].
    unfold replan_transition in H1. rewrite H in H1. discriminate.
  - split; [intros [a E]; discriminate|]. intros [H1 _]. revert H1.
    no_transition H. discriminate.
  - split; [intros [a E]; discriminate|]. intros [H1 _]. revert H1.
    no_transition H. destruct (Nat.ltb_spec MAX_RETRIES (retry_count st + 1));
      [lia | discriminate].
  - split; [auto | intros _; eauto].
  - split; [intros [a E]; discriminate | lia].
  - split; [intros [a E]; discriminate | lia].
Qed.

Lemma replan_count_le_turn (question : string) (st : run_state) (w : world) :
  replan_count (self st)
  <= replan_count (flow_self (fst (loop_body question st w))).
Proof. rewrite replan_count_turn. lia. Qed.

(** The counter at the end of the loop: what it was, and one for each
    turn that took the replan transition. *)
Lemma while_loop_replan_count (question : string) (fuel : nat) (st : run_state)
    (w : world) (o : outcome) (a : agent) (w' : world) :
  while_loop fuel question st w = (Some (o, a), w') ->
  replan_count a
  = replan_count (self st)
    + length (filter (fun t => replan_transition question (fst t) (snd t))
                (turns fuel question st w)).
Proof.
  revert st w. induction fuel as [|fuel IH]; intros st w H; [discriminate|].
  rewrite while_loop_S in H. cbn [turns filter fst snd].
  pose proof (replan_count_turn question st w) as Hstep.
  destruct (loop_body question st w) as [[st'|o1 a1] w1]; cbn [fst flow_self] in Hstep.
  - rewrite (IH _ _ H), Hstep.
    destruct (replan_transition question st w); cbn [length]; lia.
  - injection H as <- <- <-. rewrite Hstep.
    destruct (replan_transition question st w); cbn [length filter]; lia.
Qed.

Lemma while_loop_budget (question : string) (fuel : nat) (st : run_state)
    (w : world) (o : outcome) (a : agent) (w' : world) :
  while_loop fuel question st w = (Some (o, a), w') ->
  replan_count (self st) <= MAX_REPLANS ->
  (o = ReplanBudgetExhausted <-> MAX_REPLANS < replan_count a).
Proof.
  revert st w. induction fuel as [|fuel IH]; intros st w H Hle; [discriminate|].
  rewrite while_loop_S in H. revert H.
  turn_cases question st w; intros E.
  - injection E as <- <- <-. split; [discriminate | lia].
  - apply (IH _ _ E). exact Hle.
  - apply (IH _ _ E). exact Hle.
  - injection E as <- <- <-. cbn [bumped replan_count]. split; [lia | reflexivity].
  - injection E as <- <- <-. cbn [bumped replan_count]. split; [discriminate | lia].
  - apply (IH _ _ E). cbn [replanned self bumped replan_count]. lia.
Qed.

(** C4. In every run that returns: each turn that takes the FAILURE_REPLAN
    transition, directly or by escalation, adds exactly one to the replan
    counter and no other turn changes it; the counter at the end is the
    number of such turns; it never decreases from one turn to a later one;
    and the run returns the replan-budget message exactly when the counter
    has passed [MAX_REPLANS]. *)
Theorem C4_replan_counter
    (fuel : nat) (self0 : agent) (question : string) (w : world)
    (o : outcome) (a : agent) (w' : world) :
  run fuel self0 question w = (Some (o, a), w') ->
  (forall st wt,
      replan_count (flow_self (fst (loop_body question st wt)))
      = replan_count (self st) + (if replan_transition question st wt then 1 else 0))
  /\ replan_count a
     = length (filter (fun t => replan_transition question (fst t) (snd t))
                 (run_turns fuel question w))
  /\ (forall i j sti wi stj wj,
         i <= j ->
         nth_error (run_turns fuel question w) i = Some (sti, wi) ->
         nth_error (run_turns fuel question w) j = Some (stj, wj) ->
         replan_count (self sti) <= replan_count (self stj)
         /\ replan_count (self stj) <= replan_count a)
  /\ (forall st wt,
         (exists a', fst (loop_body question st wt) = Return ReplanBudgetExhausted a')
         <-> replan_transition question st wt = true
             /\ MAX_REPLANS < replan_count (self st) + 1)
  /\ (o = ReplanBudgetExhausted <-> MAX_REPLANS < replan_count a)
  /\ outcome_text ReplanBudgetExhausted = "达到最大重规划次数，任务失败。".
Proof.
  intros Hrun. rewrite run_unfold in Hrun. unfold run_turns. cbv zeta in Hrun.
  split; [intros; apply replan_count_turn|].
  destruct (_generate_plan _ _ _ _) as [[|s rest] w0].
  - injection Hrun as <- <- <-. cbn [replan_count filter length].
    split; [reflexivity|]. split; [intros [|i] j; intros; discriminate|].
    split; [intros; apply budget_turn|].
    split; [|reflexivity]. split; [discriminate | unfold MAX_REPLANS; lia].
  - split; [rewrite (while_loop_replan_count _ _ _ _ Hrun); reflexivity|].
    split.
    + intros i j sti wi stj wj Hij Hi Hj.
      refine (@turns_ordered P (fun x y => replan_count x <= replan_count y)
                question _ _ _ _ _ _ _ _ _ _ _ _ _ _ _ Hrun Hij Hi Hj).
      * intros; lia.
      * intros; lia.
      * intros; apply replan_count_le_turn.
    + split; [intros; apply budget_turn|]. split; [|reflexivity].
      apply (while_loop_budget _ _ _ _ Hrun). cbn. lia.
Qed.

End ReplanCounter.

(** ** The cursor and the active plan *)

Section Cursor.

Context {P : Platform}.

Lemma replan_turn_continue (question : string) (st : run_state) (w : world)
    (current_step : pyvalue) (output evaluation : string) (w2 : world) :
  turn question st w = Some (current_step, output, evaluation, w2) ->
  replan_transition question st w = true ->
  replan_count (self st) < MAX_REPLANS ->
  let planned := _generate_plan (bumped (self st)) question
                   (failure_info_of current_step output) w2 in
  fst planned <> [] ->
  loop_body question st w
  = (Continue {| self := bumped (self st); plan := fst planned;
                 step_index := 0; retry_count := 0 |}, snd planned).
Proof.
  intros T R Hlt planned Hne. subst planned.
  generalize (loop_body_spec question st w).
  destruct (loop_body question st w) as [fl w1]. cbn [fst snd].
  intros H. destruct H as [T'|? ? ? T'|? ? ? T' ?|? ? ? ? T' ? ?|? ? ? ? T' ? ? ?|? ? ? ? T' ? ? ?].
  - congruence.
  - revert R. no_transition T'. discriminate.
  - revert R. no_transition T'.
    destruct (Nat.ltb_spec MAX_RETRIES (retry_count st + 1)); [lia | discriminate].
  - lia.
  - rewrite T in T'. injection T' as <- <- <- <-. contradiction.
  - rewrite T in T'. injection T' as <- <- <- <-. reflexivity.
Qed.

Lemma continue_turn (question : string) (st : run_state) (w : world)
    (st' : run_state) (w' : world) :
  loop_body question st w = (Continue st', w') ->
  (replan_transition question st w = false
   /\ plan st' = plan st /\ step_index st <= step_index st')
  \/ (replan_transition question st w = true
      /\ step_index st' = 0 /\ retry_count st' = 0 /\ plan st' <> []
      /\ exists history_str failure_info before,
           trace w' = before ++ [EvPlan history_str failure_info (plan st')]).
Proof.
  generalize (loop_body_spec question st w).
  destruct (loop_body question st w) as [fl w1]. cbn [fst snd].
  intros H E. injection E as -> ->.
  inversion H as [|cs out w2 T|cs out w2 T Hle| | |cs out ev w2 T R Hle Hne]; subst.
  - left. no_transition T. cbn [advanced plan step_index]. repeat split; lia.
  - left. no_transition T. cbn [retried plan step_index].
    destruct (Nat.ltb_spec MAX_RETRIES (retry_count st + 1)); [lia|].
    repeat split; lia.
  - right. cbn [replanned plan step_index retry_count].
    repeat split; try assumption.
    destruct (generate_plan_trace (bumped (self st)) question
                (failure_info_of cs out) w2) as (h & Htr).
    eauto.
Qed.

(** C5. A turn that takes the replan transition and gets a non-empty plan
    from the Planner makes that plan the active plan, with the cursor and
    the retry counter at 0.  A turn that goes on without a replan keeps the
    active plan and does not move the cursor back; so the cursor returns to
    0 only where the plan is replaced. *)
Theorem C5_cursor_resets_only_on_replan
    (question : string) (st : run_state) (w : world) :
  (forall current_step output evaluation w2,
      turn question st w = Some (current_step, output, evaluation, w2) ->
      replan_transition question st w = true ->
      replan_count (self st) < MAX_REPLANS ->
      let planned := _generate_plan (bumped (self st)) question
                       (failure_info_of current_step output) w2 in
      fst planned <> [] ->
      loop_body question st w
      = (Continue {| self := bumped (self st); plan := fst planned;
                     step_index := 0; retry_count := 0 |}, snd planned))
  /\ (forall st' w',
         loop_body question st w = (Continue st', w') ->
         replan_transition question st w = true ->
         step_index st' = 0 /\ retry_count st' = 0 /\ plan st' <> []
         /\ exists history_str failure_info before,
              trace w' = before ++ [EvPlan history_str failure_info (plan st')])
  /\ (forall st' w',
         loop_body question st w = (Continue st', w') ->
         replan_transition question st w = false ->
         plan st' = plan st /\ step_index st <= step_index st')
  /\ (forall st' w',
         loop_body question st w = (Continue st', w') ->
         step_index st' < step_index st ->
         replan_transition question st w = true /\ step_index st' = 0).
Proof.
  split; [intros; now eapply replan_turn_continue; eauto|].
  split; [|split].
  - intros st' w' E R.
    destruct (continue_turn _ _ _ E) as [(R' & _) | (_ & H)]; [congruence | exact H].
  - intros st' w' E R.
    destruct (continue_turn _ _ _ E) as [(_ & H) | (R' & _)]; [exact H | congruence].
  - intros st' w' E Hlt.
    destruct (continue_turn _ _ _ E) as [(_ & _ & H) | (R' & H & _)]; [lia | auto].
Qed.

End Cursor.

(** ** History *)

Section History.

Context {P : Platform}.

Lemma successes_app (t1 t2 : list event) :
  successes (t1 ++ t2) = successes t1 ++ successes t2.
Proof.
  induction t1 as [|e t1 IH]; [reflexivity|].
  destruct e as [h f p|s o|s o v]; cbn [app successes]; try exact IH.
  destruct (v =? "SUCCESS"); [cbn [app]; now rewrite IH | exact IH].
Qed.

(** A turn that replans did not evaluate to SUCCESS. *)
Lemma replan_transition_not_success (question : string) (st : run_state) (w : world)
    (current_step : pyvalue) (output evaluation : string) (w2 : world) :
  turn question st w = Some (current_step, output, evaluation, w2) ->
  replan_transition question st w = true ->
  (evaluation =? "SUCCESS") = false.
Proof.
  intros T R. destruct (turn_Some _ _ _ T) as (_ & [-> | [-> | ->]] & _);
    [|reflexivity|reflexivity].
  revert R. no_transition T. discriminate.
Qed.

Lemma history_turn (question : string) (st : run_state) (w : world) :
  history (flow_self (fst (loop_body question st w)))
  = history (self st) ++ appended question st w.
Proof.
  unfold appended.
  turn_cases question st w;
    cbn [flow_self self advanced retried replanned bumped history];
    rewrite ?H; cbn [String.eqb Ascii.eqb Bool.eqb andb];
    rewrite ?(replan_transition_not_success _ _ _ H H0), ?app_nil_r; reflexivity.
Qed.

Lemma history_trace_turn (question : string) (st : run_state) (w : world) :
  exists t,
    trace (snd (loop_body question st w)) = trace w ++ t
    /\ history (flow_self (fst (loop_body question st w)))
       = history (self st) ++ successes t.
Proof.
  turn_cases question st w;
    cbn [flow_self self advanced retried replanned bumped history].
  - exists []. now rewrite !app_nil_r.
  - destruct (turn_Some _ _ _ H) as (_ & _ & ->). eexists. split; reflexivity.
  - destruct (turn_Some _ _ _ H) as (_ & _ & ->). eexists. split; [reflexivity|].
    cbn. now rewrite app_nil_r.
  - destruct (turn_Some _ _ _ H) as (_ & _ & ->). eexists. split; [reflexivity|].
    cbn [successes]. rewrite (replan_transition_not_success _ _ _ H H0).
    now rewrite app_nil_r.
  - destruct (generate_plan_trace (bumped (self st)) question
                (failure_info_of current_step output) w2) as (h & ->).
    destruct (turn_Some _ _ _ H) as (_ & _ & ->). rewrite <- app_assoc.
    eexists. split; [reflexivity|].
    cbn [app successes]. rewrite (replan_transition_not_success _ _ _ H H0).
    now rewrite app_nil_r.
  - destruct (generate_plan_trace (bumped (self st)) question
                (failure_info_of current_step output) w2) as (h & ->).
    destruct (turn_Some _ _ _ H) as (_ & _ & ->). rewrite <- app_assoc.
    eexists. split; [reflexivity|].
    cbn [app successes]. rewrite (replan_transition_not_success _ _ _ H H0).
    now rewrite app_nil_r.
Qed.

Lemma while_loop_history (question : string) (fuel : nat) (st : run_state)
    (w : world) (o : outcome) (a : agent) (w' : world) :
  while_loop fuel question st w = (Some (o, a), w') ->
  exists t, trace w' = trace w ++ t
            /\ history a = history (self st) ++ successes t.
Proof.
  revert st w. induction fuel as [|fuel IH]; intros st w H; [discriminate|].
  rewrite while_loop_S in H.
  destruct (history_trace_turn question st w) as (t1 & Ht & Hh).
  destruct (loop_body question st w) as [[st'|o1 a1] w1];
    cbn [fst snd flow_self] in Ht, Hh.
  - destruct (IH _ _ H) as (t2 & Ht2 & Hh2).
    exists (t1 ++ t2). rewrite Ht2, Ht, Hh2, Hh, successes_app, !app_assoc. auto.
  - injection H as <- <- <-. eauto.
Qed.

Lemma history_prefix_turn (question : string) (st : run_state) (w : world) :
  exists more,
    history (flow_self (fst (loop_body question st w))) = history (self st) ++ more.
Proof. rewrite history_turn. eauto. Qed.

(** C8. In every run that returns: a turn appends one entry, the step and
    its output, exactly when the evaluation is SUCCESS, and leaves the
    history alone otherwise; from one turn to a later one and to the end
    the history only grows at its end; and the history at the end is the
    list of the SUCCESS evaluations the run made, in the order it made
    them, whatever history the agent had before the run. *)
Theorem C8_history_append_only
    (fuel : nat) (self0 : agent) (question : string) (w : world)
    (o : outcome) (a : agent) (w' : world) :
  run fuel self0 question w = (Some (o, a), w') ->
  (forall st wt,
      history (flow_self (fst (loop_body question st wt)))
      = history (self st)
        ++ match turn question st wt with
           | Some (current_step, output, evaluation, _) =>
               if evaluation =? "SUCCESS"
               then [{| step := current_step; result := output |}] else []
           | None => []
           end)
  /\ (forall i j sti wi stj wj,
         i <= j ->
         nth_error (run_turns fuel question w) i = Some (sti, wi) ->
         nth_error (run_turns fuel question w) j = Some (stj, wj) ->
         (exists more, history (self stj) = history (self sti) ++ more)
         /\ (exists more, history a = history (self stj) ++ more))
  /\ (exists t, trace w' = trace w ++ t /\ history a = successes t).
Proof.
  intros Hrun. split; [intros; apply history_turn|].
  rewrite run_unfold in Hrun. unfold run_turns. cbv zeta in Hrun.
  destruct (generate_plan_trace {| history := []; replan_count := 0 |}
              question "无" w) as (h & Htr).
  destruct (_generate_plan _ _ _ _) as [[|s rest] w0]; cbn [fst snd] in Htr.
  - injection Hrun as <- <- <-. split; [intros [|i] j; intros; discriminate|].
    eexists. split; [exact Htr | reflexivity].
  - split.
    + intros i j sti wi stj wj Hij Hi Hj.
      refine (@turns_ordered P
                (fun x y => exists more, history y = history x ++ more)
                question _ _ _ _ _ _ _ _ _ _ _ _ _ _ _ Hrun Hij Hi Hj).
      * intros x. exists []. now rewrite app_nil_r.
      * intros x y z [m1 H1] [m2 H2]. exists (m1 ++ m2).
        now rewrite H2, H1, app_assoc.
      * intros; apply history_prefix_turn.
    + destruct (while_loop_history _ _ _ _ Hrun) as (t & Ht & Hh).
      exists (EvPlan h "无" (s :: rest) :: t). split.
      * rewrite Ht, Htr, <- app_assoc. reflexivity.
      * exact Hh.
Qed.

End History.

(** ** The answer of a completed run *)

Section Answer.

Context {P : Platform}.

Lemma final_answer_of_cases (a : agent) :
  (history a = [] /\ final_answer_of a = "未能完成任务")
  \/ (exists earlier e, history a = earlier ++ [e] /\ final_answer_of a = result e).
Proof.
  unfold final_answer_of. destruct (history a) as [|e rest] eqn:E.
  - left. auto.
  - right. destruct (@exists_last _ (e :: rest)) as (earlier & x & Hx); [discriminate|].
    exists earlier, x. split; [exact Hx|].
    destruct earlier as [|e' earlier]; injection Hx as -> ->.
    + reflexivity.
    + now rewrite last_last.
Qed.

Lemma while_loop_completed (question : string) (fuel : nat) (st : run_state)
    (w : world) (answer : string) (a : agent) (w' : world) :
  while_loop fuel question st w = (Some (Completed answer, a), w') ->
  answer = final_answer_of a.
Proof.
  revert st w. induction fuel as [|fuel IH]; intros st w H; [discriminate|].
  rewrite while_loop_S in H. revert H.
  turn_cases question st w; intros E;
    try (injection E as <- <-; reflexivity);
    try discriminate; eapply IH; eauto.
Qed.

(** C6. A run that comes to the end of its plan returns the result of the
    last entry of the history, or the text for "nothing completed" when the
    history is empty. *)
Theorem C6_completed_run_answer
    (fuel : nat) (self0 : agent) (question : string) (w : world)
    (answer : string) (a : agent) (w' : world) :
  run fuel self0 question w = (Some (Completed answer, a), w') ->
  outcome_text (Completed answer) = answer
  /\ ((history a = [] /\ answer = "未能完成任务")
      \/ (exists earlier e, history a = earlier ++ [e] /\ answer = result e)).
Proof.
  intros Hrun. split; [reflexivity|].
  rewrite run_unfold in Hrun. cbv zeta in Hrun.
  destruct (_generate_plan _ _ _ _) as [[|s rest] w0]; [discriminate|].
  rewrite (while_loop_completed _ _ _ _ Hrun). apply final_answer_of_cases.
Qed.

End Answer.

(** ** The step executor *)

Section Executor.

Context {P : Platform}.

(** C7. One call of [_execute_step] sends one request to the client, the
    executor prompt with the plan as a numbered list, whatever the reply,
    and returns the reply as it is: the text of the reply, and the empty
    text when the client yields nothing. *)
Theorem C7_execute_step_single_request
    (self0 : agent) (question : string) (plan0 : list pyvalue)
    (current_step : pyvalue) (w : world) :
  exists history_str,
    let prompt :=
      EXECUTOR_PROMPT_TEMPLATE question (join nl (numbered 0 plan0)) history_str
        (format_value current_step) in
    let response := fst (think (llm w) prompt) in
    let output := fst (_execute_step self0 question plan0 current_step w) in
    let w' := snd (_execute_step self0 question plan0 current_step w) in
    requests w' = requests w ++ [prompt]
    /\ length (requests w') = S (length (requests w))
    /\ llm w' = snd (think (llm w) prompt)
    /\ output = match response with Some text => text | None => "" end
    /\ (response = None -> output = "").
Proof.
  destruct (execute_step_run self0 question plan0 current_step w) as (h & E).
  exists h. cbv zeta in E |- *. rewrite E. cbn [fst snd requests llm].
  split; [reflexivity|]. split; [rewrite length_app; cbn; lia|].
  split; [reflexivity|]. split; [apply or_else_empty|].
  intros ->. reflexivity.
Qed.

End Executor.

(** ** Termination *)

Section Termination.

Context {P : Platform}.

(** Induction on three numbers in lexicographic order. *)
Lemma lex3_ind (Q : nat -> nat -> nat -> Prop) :
  (forall a b c,
      (forall a' b' c',
          a' < a \/ (a' = a /\ b' < b) \/ (a' = a /\ b' = b /\ c' < c) ->
          Q a' b' c') ->
      Q a b c) ->
  forall a b c, Q a b c.
Proof.
  intros step a.
  induction a as [a IHa] using lt_wf_ind. intros b.
  induction b as [b IHb] using lt_wf_ind. intros c.
  induction c as [c IHc] using lt_wf_ind.
  apply step. intros a' b' c' [H | [[-> H] | (-> & -> & H)]]; auto.
Qed.

(** A turn that goes on uses up one of three budgets, taken in this
    order: replans, steps of the active plan, retries of the step. *)
Lemma turn_decreases (question : string) (st : run_state) (w : world)
    (st' : run_state) (w' : world) :
  loop_body question st w = (Continue st', w') ->
  let m1 s := MAX_REPLANS - replan_count (self s) in
  let m2 s := length (plan s) - step_index s in
  let m3 s := MAX_RETRIES - retry_count s in
  m1 st' < m1 st
  \/ (m1 st' = m1 st /\ m2 st' < m2 st)
  \/ (m1 st' = m1 st /\ m2 st' = m2 st /\ m3 st' < m3 st).
Proof.
  generalize (loop_body_spec question st w).
  destruct (loop_body question st w) as [fl w1]. cbn [fst snd].
  intros H E. injection E as -> ->. cbv zeta.
  inversion H as [|cs out w2 T|cs out w2 T Hle| | |cs out ev w2 T R Hle Hne]; subst.
  - destruct (turn_Some _ _ _ T) as (Hnth & _).
    assert (step_index st < length (plan st)) by (apply nth_error_Some; congruence).
    right. left. cbn [advanced self plan step_index replan_count]. lia.
  - right. right. cbn [retried self plan step_index retry_count]. lia.
  - left. cbn [replanned bumped self replan_count]. lia.
Qed.

Lemma while_loop_terminates (question : string) (st : run_state) (w : world) :
  exists n o a w',
    forall fuel, n <= fuel -> while_loop fuel question st w = (Some (o, a), w').
Proof.
  remember (MAX_REPLANS - replan_count (self st)) as a eqn:Ea.
  remember (length (plan st) - step_index st) as b eqn:Eb.
  remember (MAX_RETRIES - retry_count st) as c eqn:Ec.
  revert st w Ea Eb Ec. pattern a, b, c. apply lex3_ind. clear a b c.
  intros a b c IH st w -> -> ->.
  destruct (loop_body question st w) as [[st'|o a] w1] eqn:E.
  - pose proof (turn_decreases _ _ _ E) as Hdec. cbv zeta in Hdec.
    destruct (IH _ _ _ Hdec st' w1 eq_refl eq_refl eq_refl) as (n & o & a & w' & Hn).
    exists (S n), o, a, w'. intros [|fuel] Hf; [lia|].
    rewrite while_loop_S, E. apply Hn. lia.
  - exists 1, o, a, w1. intros [|fuel] Hf; [lia|].
    rewrite while_loop_S, E. reflexivity.
Qed.

(** C9. [run] returns, for every goal, every client and every state the
    agent and the world are in: some number of turns of the loop is enough,
    and with that many or more the run ends with one of its four returns. *)
Theorem C9_run_terminates (self0 : agent) (question : string) (w : world) :
  exists n o a w',
    forall fuel, n <= fuel -> run fuel self0 question w = (Some (o, a), w').
Proof.
  destruct (_generate_plan {| history := []; replan_count := 0 |} question "无" w)
    as [plan0 w0] eqn:E.
  destruct plan0 as [|s rest].
  - exists 0, InitialPlanFailed, {| history := []; replan_count := 0 |}, w0.
    intros fuel _. rewrite run_unfold. cbv zeta. now rewrite E.
  - destruct (while_loop_terminates question
                (replanned {| history := []; replan_count := 0 |} (s :: rest)) w0)
      as (n & o & a & w' & Hn).
    exists n, o, a, w'. intros fuel Hf. rewrite run_unfold. cbv zeta.
    rewrite E. now apply Hn.
Qed.

End Termination.

(** ** Retries, and the escalation to a replan *)

Section Escalation.

Context {P : Platform}.

Lemma retry_turn (question : string) (st : run_state) (w : world)
    (current_step : pyvalue) (output : string) (w2 : world) :
  turn question st w = Some (current_step, output, "FAILURE_RETRY", w2) ->
  retry_count st + 1 <= MAX_RETRIES ->
  loop_body question st w = (Continue (retried st), w2).
Proof.
  intros T Hle. rewrite loop_body_turn, T. unfold on_evaluation.
  cbn [String.eqb Ascii.eqb Bool.eqb andb].
  destruct (Nat.ltb_spec MAX_RETRIES (retry_count st + 1)); [lia | reflexivity].
Qed.

Lemma escalation_turn (question : string) (st : run_state) (w : world)
    (current_step : pyvalue) (output : string) (w2 : world) :
  turn question st w = Some (current_step, output, "FAILURE_RETRY", w2) ->
  MAX_RETRIES < retry_count st + 1 ->
  replan_count (self st) < MAX_REPLANS ->
  let planned := _generate_plan (bumped (self st)) question
                   (failure_info_of current_step output) w2 in
  escalated question st w = true
  /\ snd (loop_body question st w) = snd planned
  /\ flow_self (fst (loop_body question st w)) = bumped (self st)
  /\ (fst planned <> [] ->
      fst (loop_body question st w)
      = Continue (replanned (bumped (self st)) (fst planned))).
Proof.
  intros T Hlt Hb planned. subst planned. split.
  - unfold escalated. rewrite T. apply Nat.ltb_lt in Hlt. now rewrite Hlt.
  - pose proof (replan_transition_escalated _ _ _ T Hlt) as R.
    generalize (loop_body_spec question st w).
    destruct (loop_body question st w) as [fl w1]. cbn [fst snd].
    intros H.
    destruct H as [T'|? ? ? T'|? ? ? T' ?|? ? ? ? T' ? ?|? ? ? ? T' ? ? ?|? ? ? ? T' ? ? ?];
      rewrite T in T'; try discriminate; try lia;
      injection T' as <- <- <- <-; auto.
    repeat split; auto. intros; contradiction.
Qed.

Lemma escalation_replans (question : string) (st : run_state) (w : world)
    (current_step : pyvalue) (output : string) (w2 : world) :
  turn question st w = Some (current_step, output, "FAILURE_RETRY", w2) ->
  MAX_RETRIES < retry_count st + 1 ->
  loop_body question st w = replan question (retried st) current_step output w2.
Proof.
  intros T Hlt. rewrite loop_body_turn, T. unfold on_evaluation.
  cbn [String.eqb Ascii.eqb Bool.eqb andb].
  destruct (Nat.ltb_spec MAX_RETRIES (retry_count st + 1)); [reflexivity | lia].
Qed.

(** C1, as the code has it.  With [MAX_RETRIES = 2]: when a step, first
    tried with the retry counter at 0, is evaluated FAILURE_RETRY three times
    in a row, the first two evaluations send it back to execution and the
    third is escalated, whatever the replan budget.  Each evaluation judges
    the output of an execution of its own, so the step has been executed
    three times by then; the escalated turn executes nothing more and adds
    one to the replan counter.  If the replan budget is not used up, the
    turn ends with one request to the Planner, whose failure information is
    the text naming that step and its third output; if it is used up, the
    turn returns that the budget is exhausted. *)
Theorem C1_three_retries_then_replan
    (question : string) (st : run_state) (w : world) (current_step : pyvalue)
    (r1 r2 r3 : string) (w1 w2 w3 : world) :
  retry_count st = 0 ->
  turn question st w = Some (current_step, r1, "FAILURE_RETRY", w1) ->
  turn question (retried st) w1 = Some (current_step, r2, "FAILURE_RETRY", w2) ->
  turn question (retried (retried st)) w2
    = Some (current_step, r3, "FAILURE_RETRY", w3) ->
  let third := loop_body question (retried (retried st)) w2 in
  let failure_info :=
    ("在执行步骤 '" ++ format_value current_step ++ "' 时失败。" ++ nl
     ++ "执行结果/原因: " ++ r3)%string in
  loop_body question st w = (Continue (retried st), w1)
  /\ loop_body question (retried st) w1 = (Continue (retried (retried st)), w2)
  /\ escalated question (retried (retried st)) w2 = true
  /\ trace w3
     = trace w ++ [EvExecute current_step r1;
                   EvEvaluate current_step r1 "FAILURE_RETRY";
                   EvExecute current_step r2;
                   EvEvaluate current_step r2 "FAILURE_RETRY";
                   EvExecute current_step r3;
                   EvEvaluate current_step r3 "FAILURE_RETRY"]
  /\ replan_count (flow_self (fst third)) = replan_count (self st) + 1
  /\ (exists t, trace (snd third) = trace w3 ++ t /\ count_executions t = 0)
  /\ (replan_count (self st) < MAX_REPLANS ->
      exists history_str new_plan,
        trace (snd third) = trace w3 ++ [EvPlan history_str failure_info new_plan]
        /\ requests (snd third)
           = requests w3
             ++ [PLANNER_PROMPT_TEMPLATE question history_str failure_info])
  /\ (MAX_REPLANS <= replan_count (self st) ->
      third = (Return ReplanBudgetExhausted
                 {| history := history (self st);
                    replan_count := replan_count (self st) + 1 |}, w3)).
Proof.
  intros H0 T1 T2 T3 third failure_info.
  assert (retry_count (retried st) = 1) as H1 by (cbn; lia).
  assert (retry_count (retried (retried st)) = 2) as H2 by (cbn; lia).
  split; [apply (retry_turn _ _ _ T1); unfold MAX_RETRIES; lia|].
  split; [apply (retry_turn _ _ _ T2); unfold MAX_RETRIES; lia|].
  split.
  { unfold escalated. rewrite T3, H2. reflexivity. }
  split.
  { destruct (turn_Some _ _ _ T1) as (_ & _ & E1).
    destruct (turn_Some _ _ _ T2) as (_ & _ & E2).
    destruct (turn_Some _ _ _ T3) as (_ & _ & E3).
    rewrite E3, E2, E1, <- !app_assoc. reflexivity. }
  assert (third = replan question (retried (retried (retried st)))
                    current_step r3 w3) as E.
  { apply (escalation_replans _ _ _ T3). unfold MAX_RETRIES. lia. }
  destruct (generate_plan_request
              {| history := history (self st);
                 replan_count := replan_count (self st) + 1 |}
              question failure_info w3) as (h & p & Hplan).
  destruct (replan_cases question (retried (retried (retried st)))
              current_step r3 w3) as [(Hb & R) | [(Hb & _ & R) | (Hb & _ & R)]];
    rewrite <- E in R; cbn [retried self] in R, Hb;
    change (failure_info_of current_step r3) with failure_info in R;
    rewrite R; cbn [fst snd flow_self self replan_count].
  - split; [reflexivity|]. split; [exists []; now rewrite app_nil_r|].
    split; [lia | reflexivity].
  - rewrite Hplan. cbn [trace requests].
    split; [reflexivity|]. split; [eexists; split; reflexivity|].
    split; [eauto | lia].
  - rewrite Hplan. cbn [trace requests].
    split; [reflexivity|]. split; [eexists; split; reflexivity|].
    split; [eauto | lia].
Qed.

End Escalation.

(** ** Runs against the scripted platform *)

Lemma pair_of_fst (A B : Type) (p : A * B) (x : A) :
  fst p = x -> p = (x, snd p).
Proof. intros <-. now destruct p. Defined.

(** The first half of a turn, from its step, output and evaluation. *)
Lemma turn_of_parts {P : Platform} (question : string) (st : run_state) (w : world)
    (current_step : pyvalue) (output evaluation : string) :
  option_map (fun t => fst t) (turn question st w)
    = Some (current_step, output, evaluation) ->
  turn question st w
  = Some (current_step, output, evaluation, turn_world question st w).
Proof.
  unfold turn_world. destruct (turn question st w) as [[[[cs out] ev] w2]|];
    [|discriminate].
  cbn. intros H. injection H as -> -> ->. reflexivity.
Defined.

Example literal_eval_list :
  Script.literal_eval "['a', 'b',]" = Some (PyList [PyStr "a"; PyStr "b"])
  /\ Script.literal_eval "[[1], 'x' , None]"
     = Some (PyList [PyList [PyInt 1]; PyStr "x"; PyNone])
  /\ Script.literal_eval "[1 2]" = None
  /\ Script.literal_eval "'a'" = Some (PyStr "a").
Proof. repeat split; reflexivity. Qed.

Example split_keeps_partial_fence :
  split "```python" "x```pythonab````python[1]" = ["x"; "ab`"; "[1]"].
Proof. reflexivity. Qed.

(** Scenario A: the answer is the result of the third step, the history
    has three entries and nothing was replanned. *)
Example happy_path_run :
  fst (@run Script.platform 10 init "goal" (Script.start Script.happy_path))
  = Some (Completed "rc",
          {| history := [Entry (PyStr "a") "ra"; Entry (PyStr "b") "rb";
                         Entry (PyStr "c") "rc"];
             replan_count := 0 |}).
Proof. vm_compute. reflexivity. Qed.

(** Scenario B: two retries, then the step succeeds at its third
    execution; nine requests in all, one for the plan and two for each of
    the four executions. *)
Example bounded_retry_run :
  fst (@run Script.platform 10 init "goal" (Script.start Script.bounded_retry))
  = Some (Completed "r3",
          {| history := [Entry (PyStr "a") "ra"; Entry (PyStr "b") "r3"];
             replan_count := 0 |})
  /\ List.length
       (requests (snd (@run Script.platform 10 init "goal"
                         (Script.start Script.bounded_retry))))
     = 9.
Proof. split; vm_compute; reflexivity. Qed.

(** Scenario D: the fourth replan transition ends the run; the fifth plan
    of the script is never asked for. *)
Example replan_forever_run :
  fst (@run Script.platform 10 init "goal" (Script.start Script.replan_forever))
  = Some (ReplanBudgetExhausted, {| history := []; replan_count := 4 |})
  /\ List.length (requests (snd (@run Script.platform 10 init "goal" (Script.start Script.replan_forever)))) = 12.
Proof. split; vm_compute; reflexivity. Qed.

(** Scenario E: no fenced block, no plan, and no call after the first. *)
Example unparseable_plan_run :
  fst (@run Script.platform 10 init "goal" (Script.start [Some "I cannot plan this."; Some "x"]))
  = Some (InitialPlanFailed, init)
  /\ List.length
       (requests (snd (@run Script.platform 10 init "goal" (Script.start [Some "I cannot plan this."; Some "x"]))))
     = 1.
Proof. split; vm_compute; reflexivity. Qed.

(** C2.  The plan [Planner.plan] returns need not be a list of texts: a
    tagged block that holds the list [[1, 2]] gives a plan of two integers. *)
Theorem C2_plan_of_integers :
  fst (@Planner_plan Script.platform "goal" "无" "无"
         (Script.start [Some (Script.python_block "[1, 2]")]))
  = [PyInt 1; PyInt 2].
Proof. vm_compute. reflexivity. Qed.

(** In the run of [Script.retry_exhaustion] the third evaluation comes
    after three executions, not fewer. *)
Lemma C1_counterexample :
  let t := trace (snd (@run Script.platform 10 init "goal" (Script.start Script.retry_exhaustion))) in
  ~ (exists k, executions_before_evaluation 3 t = Some k /\ k < 3).
Proof.
  cbv zeta. intros (k & Hk & Hlt).
  vm_compute in Hk. injection Hk as <-. lia.
Qed.

Lemma C1_witness :
  let st := Script.first_turn [PyStr "b"] in
  retry_count st = 0
  /\ replan_count (self st) < MAX_REPLANS
  /\ trace Script.retry_w3
     = trace Script.retry_w0
       ++ [EvExecute (PyStr "b") "r1"; EvEvaluate (PyStr "b") "r1" "FAILURE_RETRY";
           EvExecute (PyStr "b") "r2"; EvEvaluate (PyStr "b") "r2" "FAILURE_RETRY";
           EvExecute (PyStr "b") "r3"; EvEvaluate (PyStr "b") "r3" "FAILURE_RETRY"]
  /\ exists history_str new_plan,
       trace (snd (@loop_body Script.platform "goal" (retried (retried st))
                     Script.retry_w2))
       = trace Script.retry_w3
         ++ [EvPlan history_str
               ("在执行步骤 'b' 时失败。" ++ nl ++ "执行结果/原因: r3")%string
               new_plan].
Proof.
  cbv zeta.
  assert (replan_count (self (Script.first_turn [PyStr "b"])) < MAX_REPLANS) as Hb
      by (vm_compute; lia).
  split; [reflexivity|]. split; [exact Hb|].
  destruct (@C1_three_retries_then_replan Script.platform "goal"
              (Script.first_turn [PyStr "b"]) Script.retry_w0 (PyStr "b")
              "r1" "r2" "r3" Script.retry_w1 Script.retry_w2 Script.retry_w3)
    as (_ & _ & _ & Htrace & _ & _ & Hplan & _).
  - reflexivity.
  - apply turn_of_parts. vm_compute. reflexivity.
  - apply turn_of_parts. vm_compute. reflexivity.
  - apply turn_of_parts. vm_compute. reflexivity.
  - split; [exact Htrace|].
    destruct (Hplan Hb) as (h & p & Hp & _). exists h, p. exact Hp.
Defined.

Lemma C3_witness :
  fst (@Evaluator_evaluate Script.platform "goal" (PyStr "a") "ra"
         (Script.start [Some "The step was a Success."]))
  = "SUCCESS"
  /\ fst (@Evaluator_evaluate Script.platform "goal" (PyStr "a") "ra"
            (Script.start [None]))
     = "FAILURE_REPLAN".
Proof.
  split.
  - assert (occurs_anycase "SUCCESS" "The step was a Success.") as Hocc.
    { exists "The step was a ", "Success", ".". split; [reflexivity|].
      cbn. repeat split; try (left; reflexivity).
      all: right;
        first [ exists 20; split; [lia | right; split; reflexivity]
              | exists 2; split; [lia | right; split; reflexivity]
              | exists 4; split; [lia | right; split; reflexivity]
              | exists 18; split; [lia | right; split; reflexivity] ]. }
    destruct (proj1 (proj2
                (@C3_evaluate_classification Script.platform "goal" (PyStr "a") "ra"
                   (Script.start [Some "The step was a Success."])))
                "The step was a Success." eq_refl ltac:(discriminate) eq_refl)
      as [(H & _) | [(_ & H & _) | (_ & H & _)]];
      [exact H | elim (H Hocc) | elim (H Hocc)].
  - apply (proj1 (proj2 (proj2
             (@C3_evaluate_classification Script.platform "goal" (PyStr "a") "ra"
                (Script.start [None]))))).
    left. reflexivity.
Defined.

Lemma C4_witness :
  fst (@run Script.platform 10 init "goal" (Script.start Script.replan_forever))
  = Some (ReplanBudgetExhausted, {| history := []; replan_count := 4 |})
  /\ (ReplanBudgetExhausted = ReplanBudgetExhausted <-> MAX_REPLANS < 4).
Proof.
  split; [vm_compute; reflexivity|].
  refine (proj1 (proj2 (proj2 (proj2 (proj2
            (@C4_replan_counter Script.platform 10 init "goal"
               (Script.start Script.replan_forever)
               ReplanBudgetExhausted {| history := []; replan_count := 4 |}
               (snd (@run Script.platform 10 init "goal" (Script.start Script.replan_forever))) _)))))).
  apply (@pair_of_fst _ _ (@run Script.platform 10 init "goal" (Script.start Script.replan_forever))).
  vm_compute. reflexivity.
Defined.

Lemma C5_witness :
  replan_transition (P := Script.platform) "goal" (Script.first_turn [PyStr "a"])
    Script.replan_w0 = true
  /\ fst (@loop_body Script.platform "goal" (Script.first_turn [PyStr "a"])
            Script.replan_w0)
     = Continue {| self := {| history := []; replan_count := 1 |};
                   plan := [PyStr "b"; PyStr "c"];
                   step_index := 0; retry_count := 0 |}.
Proof.
  split; [vm_compute; reflexivity|].
  refine (eq_trans
            (f_equal fst
               (proj1 (@C5_cursor_resets_only_on_replan Script.platform "goal"
                         (Script.first_turn [PyStr "a"]) Script.replan_w0)
                  (PyStr "a") "ra" "FAILURE_REPLAN" Script.replan_w2 _ _ _ _)) _).
  - apply turn_of_parts. vm_compute. reflexivity.
  - vm_compute. reflexivity.
  - vm_compute. lia.
  - vm_compute. discriminate.
  - vm_compute. reflexivity.
Defined.

Lemma C6_witness :
  fst (@run Script.platform 10 init "goal" (Script.start Script.happy_path))
  = Some (Completed "rc",
          {| history := [Entry (PyStr "a") "ra"; Entry (PyStr "b") "rb";
                         Entry (PyStr "c") "rc"];
             replan_count := 0 |})
  /\ exists earlier e,
       [Entry (PyStr "a") "ra"; Entry (PyStr "b") "rb"; Entry (PyStr "c") "rc"]
       = earlier ++ [e] /\ "rc" = result e.
Proof.
  split; [vm_compute; reflexivity|].
  destruct (@C6_completed_run_answer Script.platform 10 init "goal"
              (Script.start Script.happy_path) "rc"
              {| history := [Entry (PyStr "a") "ra"; Entry (PyStr "b") "rb";
                             Entry (PyStr "c") "rc"];
                 replan_count := 0 |}
              (snd (@run Script.platform 10 init "goal" (Script.start Script.happy_path))))
    as (_ & [(H & _) | H]).
  - apply (@pair_of_fst _ _ (@run Script.platform 10 init "goal" (Script.start Script.happy_path))).
    vm_compute. reflexivity.
  - discriminate H.
  - exact H.
Defined.

Lemma C7_witness :
  fst (@_execute_step Script.platform init "goal" [PyStr "a"] (PyStr "a")
         (Script.start [None]))
  = "".
Proof.
  destruct (@C7_execute_step_single_request Script.platform init "goal" [PyStr "a"]
              (PyStr "a") (Script.start [None]))
    as (prompt & _ & _ & _ & _ & H).
  apply H. reflexivity.
Defined.

Lemma C8_witness :
  fst (@run Script.platform 10 init "goal" (Script.start Script.retry_exhaustion))
  = Some (Completed "rc", {| history := [Entry (PyStr "c") "rc"]; replan_count := 1 |})
  /\ exists t,
       trace (snd (@run Script.platform 10 init "goal" (Script.start Script.retry_exhaustion)))
       = trace (Script.start Script.retry_exhaustion) ++ t
       /\ [Entry (PyStr "c") "rc"] = successes t.
Proof.
  split; [vm_compute; reflexivity|].
  refine (proj2 (proj2
            (@C8_history_append_only Script.platform 10 init "goal"
               (Script.start Script.retry_exhaustion)
               (Completed "rc")
               {| history := [Entry (PyStr "c") "rc"]; replan_count := 1 |}
               (snd (@run Script.platform 10 init "goal" (Script.start Script.retry_exhaustion))) _))).
  apply (@pair_of_fst _ _ (@run Script.platform 10 init "goal" (Script.start Script.retry_exhaustion))).
  vm_compute. reflexivity.
Defined.

Lemma C9_witness :
  exists n o a w',
    @run Script.platform n init "goal" (Script.start Script.replan_forever) = (Some (o, a), w').
Proof.
  destruct (@C9_run_terminates Script.platform init "goal"
              (Script.start Script.replan_forever)) as (n & o & a & w' & H).
  exists n, o, a, w'. apply H. apply le_n.
Defined.

(** A block with a valid list behind a bare fence does not make the plan
    empty when a tagged block follows it: the plan is the list of the tagged
    block. *)
Lemma C10_counterexample :
  let block := (nl ++ "['a']" ++ nl)%string in
  let reply := (Script.bare_block "['a']" ++ nl ++ Script.python_block "['b']")%string in
  reply = ("" ++ "```" ++ block ++ "```" ++ nl ++ Script.python_block "['b']")%string
  /\ prefix "python" block = false
  /\ Script.literal_eval (strip block) = Some (PyList [PyStr "a"])
  /\ fst (@Planner_plan Script.platform "goal" "无" "无" (Script.start [Some reply]))
     = [PyStr "b"]
  /\ fst (@Planner_plan Script.platform "goal" "无" "无" (Script.start [Some reply]))
     <> [].
Proof.
  cbv zeta. repeat split; try reflexivity. vm_compute. discriminate.
Qed.

Lemma C10_witness :
  let reply := Script.bare_block "['a', 'b']" in
  contains "```python" reply = false
  /\ Script.literal_eval (strip (nl ++ "['a', 'b']" ++ nl))
     = Some (PyList [PyStr "a"; PyStr "b"])
  /\ fst (@Planner_plan Script.platform "goal" "无" "无" (Script.start [Some reply]))
     = []
  /\ fst (@Planner_plan Script.platform "goal" "无" "无"
            (Script.start [Some (Script.python_block "['a', 'b']")]))
     = [PyStr "a"; PyStr "b"].
Proof.
  cbv zeta. split; [reflexivity|]. split; [reflexivity|].
  split; [|vm_compute; reflexivity].
  apply (@C10_plan_requires_python_tag Script.platform "goal" "无" "无"
           (Script.start [Some (Script.bare_block "['a', 'b']")])
           (Script.bare_block "['a', 'b']")
           "" (nl ++ "['a', 'b']" ++ nl)%string ""
           [PyStr "a"; PyStr "b"]);
    reflexivity.
Defined.

(** * Further properties of the code *)

(** ** BaseAgent *)

Section BaseAgentFacts.

Import BaseAgent.

Lemma join_empty_sep (l : list string) :
  join "" l = fold_right String.append "" l.
Proof.
  induction l as [|x [|y l] IH].
  - reflexivity.
  - cbn. induction x as [|c x IHx]; [reflexivity | cbn; now rewrite <- IHx].
  - change (join "" (x :: y :: l)) with (x ++ "" ++ join "" (y :: l))%string.
    rewrite IH. reflexivity.
Qed.

Lemma collect_first_contents (response : list item) (collected_content : list string) :
  collect response collected_content
  = option_map (fun contents =>
                  collected_content ++ map (fun c => or_else c "") contents)
      (first_contents response).
Proof.
  revert collected_content.
  induction response as [|[[[|content others]]|] rest IH]; intros acc; cbn.
  - now rewrite app_nil_r.
  - reflexivity.
  - rewrite IH. destruct (first_contents rest) as [contents|]; cbn; [|reflexivity].
    now rewrite <- app_assoc.
  - reflexivity.
Qed.

(** X1.  [think] gives a text exactly when [create] returns a stream in which
    every item is a chunk with at least one choice; the text is then the
    contents of the first choices put end to end, a missing content counting
    for nothing.  A stream that raises, or a chunk without choices, gives
    [None], whatever was collected before. *)
Theorem BaseAgent_think_collects (created : option (list item)) (text : string) :
  (BaseAgent.think created = Some text <->
   exists response contents,
     created = Some response
     /\ first_contents response = Some contents
     /\ text = fold_right String.append ""
                 (map (fun c => match c with Some s => s | None => "" end) contents))
  /\ (forall before after,
         BaseAgent.think (Some (before ++ Failure :: after)) = None
         /\ BaseAgent.think (Some (before ++ Item (Chunk []) :: after)) = None).
Proof.
  split.
  - unfold BaseAgent.think. split.
    + destruct created as [response|]; [|discriminate].
      rewrite collect_first_contents.
      destruct (first_contents response) as [contents|] eqn:E; [|discriminate].
      cbn [option_map app]. intros H. injection H as <-. exists response, contents.
      split; [reflexivity|]. split; [exact E|]. rewrite join_empty_sep. f_equal.
      apply map_ext. intros c. apply or_else_empty.
    + intros (response & contents & -> & E & ->).
      rewrite collect_first_contents, E. cbn [option_map app]. rewrite join_empty_sep.
      do 2 f_equal. apply map_ext. intros c. apply or_else_empty.
  - intros before after. unfold BaseAgent.think.
    rewrite !collect_first_contents.
    assert (forall x, x = Failure \/ x = Item (Chunk []) ->
                      first_contents (before ++ x :: after) = None) as H.
    { intros x Hx. induction before as [|[[[|c o]]|] before IH]; cbn.
      - destruct Hx as [-> | ->]; reflexivity.
      - reflexivity.
      - now rewrite IH.
      - reflexivity. }
    rewrite !H by auto. split; reflexivity.
Qed.

(** X2.  A constructed client has a model id, a key and a URL that are not
    empty; each is the argument when that is given and not empty, and the
    environment variable otherwise; the timeout is the argument unless that
    is absent or 0, and 60 when LLM_TIMEOUT is not set either. *)
Theorem BaseAgent_init_settings
    (getenv : string -> option string) (int : string -> option Z)
    (model_arg apiKey baseUrl : option string) (timeout_arg : option Z)
    (cfg : config) :
  __init__ getenv int model_arg apiKey baseUrl timeout_arg = inr cfg ->
  (model cfg <> "" /\ api_key cfg <> "" /\ base_url cfg <> "")
  /\ (if blank model_arg then getenv "LLM_MODEL_ID" = Some (model cfg)
      else model_arg = Some (model cfg))
  /\ (if blank apiKey then getenv "LLM_API_KEY" = Some (api_key cfg)
      else apiKey = Some (api_key cfg))
  /\ (if blank baseUrl then getenv "LLM_BASE_URL" = Some (base_url cfg)
      else baseUrl = Some (base_url cfg))
  /\ (forall z, timeout_arg = Some z -> z <> 0%Z -> timeout cfg = z)
  /\ (timeout_arg = None \/ timeout_arg = Some 0%Z ->
      match getenv "LLM_TIMEOUT" with
      | None => timeout cfg = 60%Z
      | Some text => int text = Some (timeout cfg)
      end).
Proof.
  unfold __init__.
  set (tm := match match timeout_arg with
                   | Some z => if Z.eqb z 0 then None else Some z
                   | None => None
                   end with
             | Some z => Some z
             | None => match getenv "LLM_TIMEOUT" with
                       | None => Some 60%Z
                       | Some text => int text
                       end
             end).
  destruct tm as [z|] eqn:Etm; [|discriminate]. subst tm.
  destruct (truthy (or_getenv model_arg (getenv "LLM_MODEL_ID"))) as [m|] eqn:Em;
    [|discriminate].
  destruct (truthy (or_getenv apiKey (getenv "LLM_API_KEY"))) as [k|] eqn:Ek;
    [|discriminate].
  destruct (truthy (or_getenv baseUrl (getenv "LLM_BASE_URL"))) as [u|] eqn:Eu;
    [|discriminate].
  intros H. injection H as <-. cbn [model api_key base_url timeout].
  assert (forall arg env x,
             truthy (or_getenv arg env) = Some x ->
             x <> "" /\ (if blank arg then env = Some x else arg = Some x)) as Hset.
  { intros arg env x. unfold truthy, or_getenv, blank.
    destruct arg as [[|c t]|]; destruct env as [[|d r]|]; intros H;
      try discriminate; injection H as <-; split; try reflexivity; discriminate. }
  destruct (Hset _ _ _ Em) as (Hm & Hm').
  destruct (Hset _ _ _ Ek) as (Hk & Hk').
  destruct (Hset _ _ _ Eu) as (Hu & Hu').
  repeat split; try assumption.
  - intros z' -> Hz. destruct (Z.eqb_spec z' 0) as [E0|_]; [contradiction|].
    now injection Etm.
  - intros [-> | ->]; cbn in Etm;
      destruct (getenv "LLM_TIMEOUT"); congruence.
Qed.

(** X3.  Without a model id, a key or a URL, from the argument or from the
    environment, no client is constructed. *)
Theorem BaseAgent_init_missing
    (getenv : string -> option string) (int : string -> option Z)
    (model_arg apiKey baseUrl : option string) (timeout_arg : option Z) :
  blank model_arg && blank (getenv "LLM_MODEL_ID")
  || blank apiKey && blank (getenv "LLM_API_KEY")
  || blank baseUrl && blank (getenv "LLM_BASE_URL") = true ->
  exists e, __init__ getenv int model_arg apiKey baseUrl timeout_arg = inl e.
Proof.
  intros H. unfold __init__.
  match goal with |- context [match ?t with Some _ => _ | None => inl InvalidTimeout end] =>
    destruct t as [z|] end; [|eauto].
  assert (forall arg env, blank arg && blank env = true ->
                          truthy (or_getenv arg env) = None) as Hnone.
  { intros [[|c t]|] [[|d r]|]; cbn; intros E; try discriminate; reflexivity. }
  apply orb_true_iff in H as [H | H]; [apply orb_true_iff in H as [H | H]|];
    rewrite (Hnone _ _ H).
  - eauto.
  - destruct (truthy _); eauto.
  - destruct (truthy _); [destruct (truthy _)|]; eauto.
Qed.

End BaseAgentFacts.

(** ** Splitting and the fenced block *)

Section SplitFacts.

Lemma join_cons_char (sep : string) (c : ascii) (a : string) (l : list string) :
  join sep (String c a :: l) = String c (join sep (a :: l)).
Proof. destruct l; reflexivity. Qed.

Lemma drop_app_length (x rest : string) :
  drop (String.length x) (x ++ rest) = rest.
Proof. induction x as [|c x IH]; [now destruct rest | exact IH]. Qed.

Lemma split_go_join (sep : string) (s : string) (skip : nat) :
  sep <> "" ->
  join sep (let (seg, segs) := split_go sep skip s in seg :: segs) = drop skip s.
Proof.
  intros Hsep. revert skip. induction s as [|c t IH]; intros skip.
  - now destruct skip.
  - destruct skip as [|k]; cbn [split_go drop].
    + destruct (prefix sep (String c t)) eqn:Hp.
      * apply prefix_true_iff in Hp as [post Hp].
        destruct sep as [|d sep']; [contradiction|].
        cbn [String.append] in Hp. injection Hp as <- ->.
        replace (String.length (String c sep') - 1) with (String.length sep')
          by (cbn [String.length]; lia).
        pose proof (IH (String.length sep')) as H.
        destruct (split_go (String c sep') (String.length sep') (sep' ++ post))
          as [seg segs].
        change (join (String c sep') (EmptyString :: seg :: segs))
          with (String c sep' ++ join (String c sep') (seg :: segs))%string.
        rewrite H, drop_app_length. reflexivity.
      * pose proof (IH 0) as H.
        destruct (split_go sep 0 t) as [seg segs].
        rewrite join_cons_char, H. now destruct t.
    + apply IH.
Qed.

(** X4.  [sep.join(s.split(sep)) == s], for a separator that is not empty. *)
Theorem split_join_round_trip (sep s : string) :
  sep <> "" -> join sep (split sep s) = s.
Proof.
  intros Hsep. unfold split. rewrite (split_go_join s 0 Hsep). now destruct s.
Qed.

Lemma split_go_found (sep s : string) :
  sep <> "" -> contains sep s = true -> snd (split_go sep 0 s) <> [].
Proof.
  intros Hsep.
  induction s as [|c t IH]; cbn [contains split_go]; intros H.
  - destruct sep; [contradiction | cbn in H; discriminate].
  - destruct (prefix sep (String c t)).
    + cbn [snd]. destruct (split_go sep (String.length sep - 1) t) as [seg segs].
      intros E. discriminate E.
    + cbn [orb] in H. specialize (IH H).
      destruct (split_go sep 0 t). exact IH.
Qed.

(** X5.  [s.split(sep)] has a second segment exactly when [sep] is in [s]: the
    index [[1]] raises IndexError exactly on a text without the separator,
    and then the split is the text alone. *)
Theorem split_second_segment (sep s : string) :
  sep <> "" ->
  (nth_error (split sep s) 1 = None <-> contains sep s = false)
  /\ (contains sep s = false -> split sep s = [s]).
Proof.
  intros Hsep. split; [|apply split_without_sep]. split.
  - intros H. destruct (contains sep s) eqn:E; [|reflexivity].
    apply (@split_go_found sep s Hsep) in E. unfold split in H.
    destruct (split_go sep 0 s) as [seg [|seg' segs]]; [now elim E | discriminate].
  - intros H. now rewrite (split_without_sep _ _ H).
Qed.

Lemma split_go_skip (sep x rest : string) :
  split_go sep (String.length x) (x ++ rest) = split_go sep 0 rest.
Proof.
  induction x as [|c x IH]; [reflexivity | exact IH].
Qed.

(** No separator that begins with a backtick is found in a text without
    backticks. *)
Lemma split_go_no_backtick (sep' x r : string) :
  has_char "`" x = false ->
  split_go (String "`" sep') 0 (x ++ r)
  = ((x ++ fst (split_go (String "`" sep') 0 r))%string,
     snd (split_go (String "`" sep') 0 r)).
Proof.
  induction x as [|c x IH]; cbn [has_char String.append]; intros H.
  - now destruct (split_go _ _ _).
  - apply orb_false_iff in H as [Hc Hx].
    cbn [split_go prefix].
    destruct (Ascii.ascii_dec "`" c) as [<-|_]; [discriminate|].
    rewrite (IH Hx). reflexivity.
Qed.

Lemma split_go_at_sep (sep' rest : string) :
  split_go (String "`" sep') 0 (String "`" sep' ++ rest)
  = (EmptyString,
     fst (split_go (String "`" sep') 0 rest)
     :: snd (split_go (String "`" sep') 0 rest)).
Proof.
  cbn [String.append split_go].
  assert (prefix (String "`" sep') (String "`" (sep' ++ rest)) = true) as ->.
  { apply prefix_true_iff. now exists rest. }
  replace (String.length (String "`" sep') - 1) with (String.length sep')
    by (cbn [String.length]; lia).
  rewrite split_go_skip.
  now destruct (split_go _ _ _).
Qed.

(** The closing fence ends the block, whatever follows, unless a backtick
    follows. *)
Lemma block_before_fence (body post : string) :
  has_char "`" body = false ->
  prefix "`" post = false ->
  nth_error (split "```" (fst (split_go "```python" 0 (body ++ "```" ++ post)))) 0
  = Some body.
Proof.
  intros Hbody Hpost.
  rewrite (@split_go_no_backtick _ body _ Hbody). cbn [fst].
  unfold split. rewrite (@split_go_no_backtick _ body _ Hbody).
  assert (fst (split_go "```" 0 (fst (split_go "```python" 0 ("```" ++ post))))
          = EmptyString) as ->.
  { destruct post as [|d post]; [reflexivity|].
    cbn [prefix] in Hpost.
    cbn [String.append split_go prefix].
    destruct (Ascii.ascii_dec "`" d) as [<-|Hd]; [now destruct post|].
    destruct (Ascii.ascii_dec "p" d) as [<-|_].
    - destruct (prefix "ython" post); [reflexivity|].
      cbn [Ascii.ascii_dec]. destruct (split_go "```python" 0 _). reflexivity.
    - destruct (split_go "```python" 0 _). reflexivity. }
  cbn [nth_error]. f_equal. clear. induction body; cbn; congruence.
Qed.

Lemma has_char_not_contained (c : ascii) (sep' x : string) :
  has_char c x = false -> contains (String c sep') x = false.
Proof.
  induction x as [|d x IH]; cbn [has_char contains prefix]; intros H.
  - reflexivity.
  - apply orb_false_iff in H as [Hd Hx].
    destruct (Ascii.ascii_dec c d) as [<-|_];
      [rewrite Ascii.eqb_refl in Hd; discriminate|].
    now rewrite (IH Hx).
Qed.

Lemma append_empty_r (x : string) : (x ++ "")%string = x.
Proof. induction x as [|c x IH]; cbn; [reflexivity | now rewrite IH]. Qed.

Lemma split_go_one_char (c : ascii) (x r : string) :
  has_char c x = false ->
  split_go (String c "") 0 (x ++ String c r)
  = (x, fst (split_go (String c "") 0 r) :: snd (split_go (String c "") 0 r)).
Proof.
  induction x as [|d x IHx]; intros Hx.
  - cbn [String.append split_go prefix].
    destruct (Ascii.ascii_dec c c) as [_|N]; [|now elim N].
    assert (prefix "" r = true) as -> by now destruct r.
    cbn [String.length Nat.sub]. now destruct (split_go _ _ _).
  - cbn [has_char] in Hx. apply orb_false_iff in Hx as [Hd Hx].
    cbn [String.append split_go prefix].
    destruct (Ascii.ascii_dec c d) as [<-|_];
      [rewrite Ascii.eqb_refl in Hd; discriminate|].
    now rewrite (IHx Hx).
Qed.

(** A text cut at a one-character separator that none of the joined
    pieces holds gives the pieces back. *)
Lemma split_join_lines (c : ascii) (l : list string) :
  l <> [] ->
  Forall (fun x => has_char c x = false) l ->
  split (String c "") (join (String c "") l) = l.
Proof.
  intros Hne Hall. induction Hall as [|x l Hx Hall IH]; [contradiction|].
  destruct l as [|y l].
  - cbn [join]. apply split_without_sep. now apply has_char_not_contained.
  - change (join (String c "") (x :: y :: l))
      with (x ++ String c (join (String c "") (y :: l)))%string.
    specialize (IH ltac:(discriminate)). unfold split in *.
    rewrite (@split_go_one_char c x _ Hx).
    destruct (split_go (String c "") 0 (join (String c "") (y :: l)))
      as [seg segs]. cbn [fst snd]. now rewrite IH.
Qed.

End SplitFacts.

(** ** The plan in a tagged block *)

Section TaggedBlock.

Context {P : Platform}.

Lemma parse_plan_tagged_block (pre body post : string) :
  has_char "`" pre = false ->
  has_char "`" body = false ->
  prefix "`" post = false ->
  parse_plan (pre ++ "```python" ++ body ++ "```" ++ post)
  = match literal_eval (str_strip body) with
    | Some (PyList items) => items
    | _ => []
    end.
Proof.
  intros Hpre Hbody Hpost. unfold parse_plan, split at 1.
  rewrite (@split_go_no_backtick _ pre _ Hpre).
  rewrite (split_go_at_sep "``python" (body ++ "```" ++ post)).
  cbn [fst snd nth_error].
  pose proof (block_before_fence _ _ Hbody Hpost) as B.
  cbn [nth_error] in B. rewrite B.
  destruct (literal_eval (str_strip body)) as [[| | | |items| |]|]; reflexivity.
Qed.

(** X6.  A reply in the form the planner prompt asks for is read as meant: with
    prose before, one block tagged [python], and anything after the closing
    fence that does not begin with a backtick, no backtick being in the
    prose before or in the block, the plan is the list that the text of the
    block evaluates to, and the empty plan when that text is no list. *)
Theorem Planner_plan_reads_tagged_block
    (question history_str failure_info : string) (w : world)
    (pre body post : string) :
  fst (think (llm w) (PLANNER_PROMPT_TEMPLATE question history_str failure_info))
    = Some (pre ++ "```python" ++ body ++ "```" ++ post)%string ->
  has_char "`" pre = false ->
  has_char "`" body = false ->
  prefix "`" post = false ->
  fst (Planner_plan question history_str failure_info w)
  = match literal_eval (str_strip body) with
    | Some (PyList items) => items
    | _ => []
    end.
Proof.
  intros Hreply Hpre Hbody Hpost.
  rewrite Planner_plan_value, Hreply, or_else_empty.
  now apply parse_plan_tagged_block.
Qed.

Lemma numbered_nth (plan0 : list pyvalue) (i k : nat) :
  nth_error (numbered i plan0) k
  = option_map (fun s => (of_nat (i + k + 1) ++ ". " ++ format_value s)%string)
      (nth_error plan0 k).
Proof.
  revert i k. induction plan0 as [|s rest IH]; intros i k.
  - now destruct k.
  - destruct k as [|k]; cbn [numbered nth_error option_map].
    + now rewrite Nat.add_0_r.
    + rewrite IH. now replace (S i + k + 1) with (i + S k + 1) by lia.
Qed.

Lemma numbered_length (plan0 : list pyvalue) (i : nat) :
  length (numbered i plan0) = length plan0.
Proof.
  revert i. induction plan0 as [|s rest IH]; intros i; cbn; [|rewrite IH];
    reflexivity.
Qed.

Lemma has_char_app (c : ascii) (a b : string) :
  has_char c (a ++ b) = has_char c a || has_char c b.
Proof.
  induction a as [|d a IH]; cbn; [reflexivity | now rewrite IH, orb_assoc].
Qed.

Lemma digits_no_line_feed (d : Decimal.uint) :
  has_char "010" (NilEmpty.string_of_uint d) = false.
Proof. induction d; cbn; assumption || reflexivity. Qed.

Lemma numbered_no_line_feed (plan0 : list pyvalue) (i : nat) :
  (forall s, In s plan0 -> has_char "010" (format_value s) = false) ->
  Forall (fun line => has_char "010" line = false) (numbered i plan0).
Proof.
  revert i. induction plan0 as [|s rest IH]; intros i H; cbn [numbered];
    constructor.
  - rewrite !has_char_app. unfold of_nat. rewrite digits_no_line_feed.
    rewrite (H s (or_introl eq_refl)). reflexivity.
  - apply IH. intros s' Hs'. apply H. now right.
Qed.

(** X7.  When no step holds a line feed, the plan text given to the executor
    has exactly one line for each step, in order: cut at its line feeds, it
    gives as many lines as the plan has steps, and the line of the [k]-th
    step (from 0) is the number [k + 1], a dot, a space and the step. *)
Theorem numbered_plan_lines (plan0 : list pyvalue) :
  plan0 <> [] ->
  (forall s, In s plan0 -> has_char "010" (format_value s) = false) ->
  let plan_str := join nl (numbered 0 plan0) in
  length (split nl plan_str) = length plan0
  /\ forall k,
       nth_error (split nl plan_str) k
       = option_map (fun s => (of_nat (k + 1) ++ ". " ++ format_value s)%string)
           (nth_error plan0 k).
Proof.
  intros Hne Hsteps plan_str. subst plan_str.
  assert (numbered 0 plan0 <> []) as Hn by (destruct plan0; [contradiction | discriminate]).
  pose proof (@numbered_no_line_feed plan0 0 Hsteps) as Hlines.
  unfold nl. change (ascii_of_nat 10) with "010"%char.
  rewrite (@split_join_lines "010" _ Hn Hlines).
  split; [apply numbered_length | intros k; apply numbered_nth].
Qed.

End TaggedBlock.

(** ** The calls of a run *)

Section RunFacts.

Context {P : Platform}.

Lemma turn_requests (question : string) (st : run_state) (w : world)
    (current_step : pyvalue) (output evaluation : string) (w2 : world) :
  turn question st w = Some (current_step, output, evaluation, w2) ->
  length (requests w2) = length (requests w) + 2.
Proof.
  unfold turn. destruct (nth_error _ _) as [cs|]; [|discriminate].
  destruct (execute_step_run (self st) question (plan st) cs w) as (p1 & E1).
  cbv zeta in E1. rewrite E1.
  match goal with |- context [Evaluator_evaluate ?q ?c ?o ?w1] =>
    destruct (evaluate_run q c o w1) as (p2 & E2) end.
  cbv zeta in E2. rewrite E2. intros H. injection H as <- <- <- <-.
  cbn [requests]. rewrite !length_app. cbn. lia.
Qed.

Lemma generate_plan_requests (self0 : agent) (question failure_info : string)
    (w : world) :
  length (requests (snd (_generate_plan self0 question failure_info w)))
  = length (requests w) + 1.
Proof.
  destruct (generate_plan_run self0 question failure_info w) as (p & h & E).
  cbv zeta in E. rewrite E. cbn [snd requests]. rewrite length_app. reflexivity.
Qed.

Lemma cycles_app (t1 t2 : list event) :
  cycles t1 -> cycles t2 -> cycles (t1 ++ t2).
Proof.
  induction 1; intros H2; cbn [app]; [assumption | |]; constructor; auto.
Qed.

Lemma cycles_length (t : list event) :
  cycles t -> length t = count_plans t + 2 * count_executions t.
Proof.
  induction 1 as [|h f p t H IH|s o v t H IH]; cbn [length count_plans count_executions];
    lia.
Qed.

Lemma count_plans_app (t1 t2 : list event) :
  count_plans (t1 ++ t2) = count_plans t1 + count_plans t2.
Proof.
  induction t1 as [|[h f p|s o|s o v] t1 IH]; cbn [app count_plans]; lia.
Qed.

(** What one turn adds to the trace and to the requests. *)
Lemma turn_shape (question : string) (st : run_state) (w : world) :
  exists t,
    trace (snd (loop_body question st w)) = trace w ++ t
    /\ length (requests (snd (loop_body question st w)))
       = length (requests w) + length t
    /\ cycles t
    /\ replan_count (self st) + count_plans t
       + match fst (loop_body question st w) with
         | Return o _ => exhausted o
         | Continue _ => 0
         end
       = replan_count (flow_self (fst (loop_body question st w))).
Proof.
  turn_cases question st w;
    cbn [flow_self self advanced retried replanned bumped replan_count exhausted].
  - exists []. rewrite app_nil_r. repeat split; [cbn; lia | constructor | cbn; lia].
  - destruct (turn_Some _ _ _ H) as (_ & _ & ->). rewrite (turn_requests _ _ _ H).
    eexists. split; [reflexivity|]. repeat split; [repeat constructor | cbn; lia].
  - destruct (turn_Some _ _ _ H) as (_ & _ & ->). rewrite (turn_requests _ _ _ H).
    eexists. split; [reflexivity|]. repeat split; [repeat constructor | cbn; lia].
  - destruct (turn_Some _ _ _ H) as (_ & _ & ->). rewrite (turn_requests _ _ _ H).
    eexists. split; [reflexivity|]. repeat split; [repeat constructor | cbn; lia].
  - destruct (generate_plan_trace (bumped (self st)) question
                (failure_info_of current_step output) w2) as (h & ->).
    rewrite generate_plan_requests.
    destruct (turn_Some _ _ _ H) as (_ & _ & ->). rewrite (turn_requests _ _ _ H).
    rewrite <- app_assoc. eexists. split; [reflexivity|].
    repeat split; [cbn; lia | repeat constructor | cbn; lia].
  - destruct (generate_plan_trace (bumped (self st)) question
                (failure_info_of current_step output) w2) as (h & ->).
    rewrite generate_plan_requests.
    destruct (turn_Some _ _ _ H) as (_ & _ & ->). rewrite (turn_requests _ _ _ H).
    rewrite <- app_assoc. eexists. split; [reflexivity|].
    repeat split; [cbn; lia | repeat constructor | cbn; lia].
Qed.

Lemma while_loop_shape (question : string) (fuel : nat) (st : run_state)
    (w : world) (o : outcome) (a : agent) (w' : world) :
  while_loop fuel question st w = (Some (o, a), w') ->
  exists t,
    trace w' = trace w ++ t
    /\ length (requests w') = length (requests w) + length t
    /\ cycles t
    /\ replan_count (self st) + count_plans t + exhausted o = replan_count a.
Proof.
  revert st w. induction fuel as [|fuel IH]; intros st w H; [discriminate|].
  rewrite while_loop_S in H.
  destruct (turn_shape question st w) as (t1 & Ht & Hr & Hc & Hp).
  destruct (loop_body question st w) as [[st'|o1 a1] w1];
    cbn [fst snd flow_self] in Ht, Hr, Hp.
  - destruct (IH _ _ H) as (t2 & Ht2 & Hr2 & Hc2 & Hp2).
    exists (t1 ++ t2). rewrite Ht2, Ht, Hr2, Hr, count_plans_app, length_app, app_assoc.
    repeat split; [lia | now apply cycles_app | lia].
  - injection H as <- <- <-. exists t1. auto.
Qed.

(** The loop state keeps its bounds from one turn to the next. *)
Lemma loop_invariant_turn (question : string) (st : run_state) (w : world)
    (st' : run_state) (w' : world) :
  loop_body question st w = (Continue st', w') ->
  loop_invariant st -> loop_invariant st'.
Proof.
  unfold loop_invariant.
  generalize (loop_body_spec question st w).
  destruct (loop_body question st w) as [fl w1]. cbn [fst snd].
  intros H E (Hp & Hi & Hr & Hb & Hh). injection E as -> ->.
  inversion H as [|cs out w2 T|cs out w2 T Hle| | |cs out ev w2 T R Hle Hne]; subst.
  - destruct (turn_Some _ _ _ T) as (Hnth & _).
    assert (step_index st < length (plan st)) by (apply nth_error_Some; congruence).
    cbn [advanced self plan step_index retry_count replan_count history].
    rewrite length_app. cbn [length]. repeat split; try assumption; lia.
  - cbn [retried self plan step_index retry_count]. repeat split; try assumption; lia.
  - cbn [replanned bumped self plan step_index retry_count replan_count history].
    repeat split; try assumption; lia.
Qed.

Lemma turns_invariant (question : string) (fuel j : nat) (st : run_state) (w : world)
    (stj : run_state) (wj : world) :
  loop_invariant st ->
  nth_error (turns fuel question st w) j = Some (stj, wj) ->
  loop_invariant stj.
Proof.
  revert j st w. induction fuel as [|fuel IH]; intros j st w Hinv H.
  - destruct j; discriminate.
  - destruct j as [|j]; cbn [turns nth_error] in H.
    + now injection H as <- <-.
    + destruct (loop_body question st w) as [[st'|o1 a1] w1] eqn:E.
      * eapply IH; [|exact H]. eapply loop_invariant_turn; eauto.
      * destruct j; discriminate.
Qed.

(** The turn that ends the loop starts in a state within the bounds. *)
Lemma while_loop_last_turn (question : string) (fuel : nat) (st : run_state)
    (w : world) (o : outcome) (a : agent) (w' : world) :
  while_loop fuel question st w = (Some (o, a), w') ->
  loop_invariant st ->
  exists st_last w_last,
    loop_invariant st_last
    /\ loop_body question st_last w_last = (Return o a, w').
Proof.
  revert st w. induction fuel as [|fuel IH]; intros st w H Hinv; [discriminate|].
  rewrite while_loop_S in H.
  destruct (loop_body question st w) as [[st'|o1 a1] w1] eqn:E.
  - eapply IH; [exact H|]. eapply loop_invariant_turn; eauto.
  - injection H as <- <- <-. eauto.
Qed.

Lemma first_turn_invariant (s : pyvalue) (rest : list pyvalue) :
  loop_invariant (replanned {| history := []; replan_count := 0 |} (s :: rest)).
Proof.
  unfold loop_invariant, MAX_RETRIES, MAX_REPLANS. cbn.
  repeat split; try lia. discriminate.
Qed.

End RunFacts.

(** ** Whole runs *)

Section WholeRuns.

Context {P : Platform}.

(** X8.  Each time the loop test is reached, the active plan is not empty, the
    cursor is within it or just past its end, the retries of the step and
    the replans of the run are within their bounds, and the history has at
    least as many entries as the cursor has passed steps. *)
Theorem run_loop_bounds (fuel : nat) (question : string) (w : world)
    (j : nat) (st : run_state) (wt : world) :
  nth_error (run_turns fuel question w) j = Some (st, wt) ->
  plan st <> []
  /\ step_index st <= length (plan st)
  /\ retry_count st <= MAX_RETRIES
  /\ replan_count (self st) <= MAX_REPLANS
  /\ step_index st <= length (history (self st)).
Proof.
  unfold run_turns.
  destruct (_generate_plan _ _ _ _) as [[|s rest] w0]; [destruct j; discriminate|].
  apply turns_invariant. apply first_turn_invariant.
Qed.

Lemma turn_None (question : string) (st : run_state) (w : world) :
  turn question st w = None -> length (plan st) <= step_index st.
Proof.
  unfold turn. destruct (nth_error _ _) as [cs|] eqn:E.
  - destruct (_execute_step _ _ _ _ _) as [out w1].
    destruct (Evaluator_evaluate _ _ _ _) as [ev w2]. discriminate.
  - intros _. now apply nth_error_None.
Qed.

(** X9.  A run that comes to the end of its plan has a history that is not
    empty, and returns the result of its last entry: the text kept for an
    empty history is not what this return gives. *)
Theorem completed_run_has_history
    (fuel : nat) (self0 : agent) (question : string) (w : world)
    (answer : string) (a : agent) (w' : world) :
  run fuel self0 question w = (Some (Completed answer, a), w') ->
  history a <> []
  /\ exists earlier e, history a = earlier ++ [e] /\ answer = result e.
Proof.
  intros Hrun. rewrite run_unfold in Hrun. cbv zeta in Hrun.
  destruct (_generate_plan _ _ _ _) as [[|s rest] w0]; [discriminate|].
  destruct (while_loop_last_turn _ _ _ Hrun (first_turn_invariant s rest))
    as (stl & wl & (Hp & Hi & _ & _ & Hh) & E).
  assert (history a <> [] /\ answer = final_answer_of a) as [Hne ->].
  { revert E. turn_cases question stl wl; intros E; try discriminate.
    injection E as <- <- <-. split; [|reflexivity].
    apply turn_None in H. destruct (plan stl); [contradiction|].
    cbn [length] in *. destruct (history (self stl)); [cbn in Hh; lia | discriminate]. }
  split; [exact Hne|].
  destruct (final_answer_of_cases a) as [(H & _) | H]; [contradiction | exact H].
Qed.

Lemma while_loop_replan_bound (question : string) (fuel : nat) (st : run_state)
    (w : world) (o : outcome) (a : agent) (w' : world) :
  while_loop fuel question st w = (Some (o, a), w') ->
  loop_invariant st ->
  replan_count a <= MAX_REPLANS + exhausted o.
Proof.
  intros Hrun Hinv.
  destruct (while_loop_last_turn _ _ _ Hrun Hinv)
    as (stl & wl & (_ & _ & _ & Hb & _) & E).
  revert E. turn_cases question stl wl; intros E; try discriminate;
    injection E as <- <- <-; cbn [exhausted bumped replan_count]; lia.
Qed.

(** X10.  In a run the Planner is called once at the start and once for each
    replan that the budget allows: [MAX_REPLANS + 1] times at most, which
    is 4.  The call that would be the fifth is not made: the run returns
    with the counter at 4. *)
Theorem run_planner_calls
    (fuel : nat) (self0 : agent) (question : string) (w : world)
    (o : outcome) (a : agent) (w' : world) :
  run fuel self0 question w = (Some (o, a), w') ->
  exists t,
    trace w' = trace w ++ t
    /\ count_plans t + exhausted o = 1 + replan_count a
    /\ count_plans t <= MAX_REPLANS + 1.
Proof.
  intros Hrun. rewrite run_unfold in Hrun. cbv zeta in Hrun.
  destruct (generate_plan_trace {| history := []; replan_count := 0 |}
              question "无" w) as (h & Htr).
  destruct (_generate_plan _ _ _ _) as [[|s rest] w0]; cbn [fst snd] in Htr.
  - injection Hrun as <- <- <-. eexists. split; [exact Htr|]. cbn. lia.
  - destruct (while_loop_shape _ _ _ _ Hrun) as (t & Ht & _ & _ & Hp).
    pose proof (while_loop_replan_bound _ _ _ Hrun (first_turn_invariant s rest)).
    cbn [replanned self replan_count] in Hp.
    exists (EvPlan h "无" (s :: rest) :: t). split.
    + rewrite Ht, Htr, <- app_assoc. reflexivity.
    + cbn [count_plans]. lia.
Qed.

Lemma first_plan_trace (question : string) (w : world) :
  exists plan0,
    trace (snd (_generate_plan {| history := []; replan_count := 0 |}
                  question "无" w))
    = trace w ++ [EvPlan "无" "无" plan0].
Proof.
  unfold _generate_plan, Planner_plan, bind, call_think, log, ret. cbn [history].
  destruct (think _ _) as [response llm']. cbn [snd trace]. eauto.
Qed.

(** X11.  The trace of a run: the call of the Planner for the first plan, with
    no history and no failure to report, then executions each followed at
    once by the evaluation of the same step and output, and replans.  Every
    request to the client is one of these calls: the run sends one request
    for each call of the Planner and two for each execution. *)
Theorem run_trace_cycles
    (fuel : nat) (self0 : agent) (question : string) (w : world)
    (o : outcome) (a : agent) (w' : world) :
  run fuel self0 question w = (Some (o, a), w') ->
  exists first_plan t,
    trace w' = trace w ++ EvPlan "无" "无" first_plan :: t
    /\ cycles t
    /\ length (requests w')
       = length (requests w) + 1 + count_plans t + 2 * count_executions t.
Proof.
  intros Hrun. rewrite run_unfold in Hrun. cbv zeta in Hrun.
  pose proof (generate_plan_requests {| history := []; replan_count := 0 |}
                question "无" w) as Hreq.
  destruct (first_plan_trace question w) as (plan0 & Htr).
  destruct (_generate_plan _ _ _ _) as [[|s rest] w0]; cbn [fst snd] in Htr, Hreq.
  - injection Hrun as <- <- <-. exists plan0, []. rewrite Htr, Hreq.
    repeat split; [constructor | cbn; lia].
  - destruct (while_loop_shape _ _ _ _ Hrun) as (t & Ht & Hr & Hc & _).
    exists plan0, t. rewrite Ht, Htr, <- app_assoc, Hr, Hreq, (cycles_length Hc).
    repeat split; [exact Hc | lia].
Qed.

(** X12.  When the first reply holds no plan, the run ends there: it returns
    that no initial plan could be made, after the one request for the plan,
    with no step executed or evaluated, whatever the fuel. *)
Theorem run_without_initial_plan
    (fuel : nat) (self0 : agent) (question : string) (w : world) :
  parse_plan (or_else (fst (think (llm w) (PLANNER_PROMPT_TEMPLATE question "无" "无")))
                "") = [] ->
  fst (run fuel self0 question w)
    = Some (InitialPlanFailed, {| history := []; replan_count := 0 |})
  /\ requests (snd (run fuel self0 question w))
     = requests w ++ [PLANNER_PROMPT_TEMPLATE question "无" "无"]
  /\ trace (snd (run fuel self0 question w)) = trace w ++ [EvPlan "无" "无" []].
Proof.
  intros H. unfold run, _generate_plan, Planner_plan, bind, call_think, log, ret.
  cbn [history]. destruct (think _ _) as [response llm'] eqn:E.
  cbn [fst] in H. rewrite H. cbn. auto.
Qed.

Lemma skipn_nth_error (A : Type) (l : list A) (i : nat) (x : A) :
  nth_error l i = Some x -> skipn i l = x :: skipn (S i) l.
Proof.
  revert i. induction l as [|y l IH]; intros [|i] H; try discriminate.
  - now injection H as ->.
  - cbn [skipn]. now apply IH.
Qed.

Lemma success_turn_continue (question : string) (st : run_state) (w : world)
    (current_step : pyvalue) (output : string) (w2 : world) :
  turn question st w = Some (current_step, output, "SUCCESS", w2) ->
  loop_body question st w = (Continue (advanced st current_step output), w2).
Proof. intros T. rewrite loop_body_turn, T. reflexivity. Qed.

Lemma all_success_loop (question : string) (n : nat) (st : run_state) (w : world) :
  length (plan st) - step_index st = n ->
  step_index st <= length (plan st) ->
  all_success question (turns (S n) question st w) = true ->
  exists a w',
    while_loop (S n) question st w = (Some (Completed (final_answer_of a), a), w')
    /\ replan_count a = replan_count (self st)
    /\ map step (history a)
       = map step (history (self st)) ++ skipn (step_index st) (plan st)
    /\ length (requests w') = length (requests w) + 2 * n.
Proof.
  revert st w. induction n as [|n IH]; intros st w Hn Hle Hall.
  - assert (nth_error (plan st) (step_index st) = None) as E
        by (apply nth_error_None; lia).
    exists (self st), w. rewrite while_loop_S, loop_body_turn.
    unfold turn. rewrite E. repeat split.
    + rewrite skipn_all2 by lia. now rewrite app_nil_r.
    + lia.
  - destruct (nth_error (plan st) (step_index st)) as [cs|] eqn:E;
      [|apply nth_error_None in E; lia].
    cbn [turns all_success forallb fst snd] in Hall.
    apply andb_true_iff in Hall as [Hhead Htail].
    destruct (turn question st w) as [[[[cs' out] ev] w2]|] eqn:T.
    + apply String.eqb_eq in Hhead. subst ev.
      destruct (turn_Some _ _ _ T) as (Hnth & _).
      pose proof (success_turn_continue _ _ _ T) as Hbody.
      rewrite Hbody in Htail.
      destruct (IH (advanced st cs' out) w2) as (a & w' & Hrun & Hrc & Hh & Hreq).
      * cbn [advanced plan step_index]. lia.
      * cbn [advanced plan step_index]. lia.
      * exact Htail.
      * exists a, w'. rewrite while_loop_S, Hbody. split; [exact Hrun|].
        split; [exact Hrc|]. split.
        -- rewrite Hh. cbn [advanced self history plan step_index].
           rewrite map_app, <- app_assoc, (skipn_nth_error _ _ Hnth).
           cbn [map step app]. now rewrite Nat.add_1_r.
        -- rewrite Hreq, (turn_requests _ _ _ T). lia.
    + apply turn_None in T. lia.
Qed.

(** X13.  When every evaluation of a run is SUCCESS, the run goes once through the
    first plan and completes: the steps of the history are the steps of
    that plan, in order; nothing is replanned; and the client receives one
    request for the plan and two for each step. *)
Theorem run_all_success
    (self0 : agent) (question : string) (w : world) :
  let first_plan :=
    fst (_generate_plan {| history := []; replan_count := 0 |} question "无" w) in
  let fuel := S (length first_plan) in
  first_plan <> [] ->
  all_success question (run_turns fuel question w) = true ->
  exists a w',
    run fuel self0 question w = (Some (Completed (final_answer_of a), a), w')
    /\ map step (history a) = first_plan
    /\ replan_count a = 0
    /\ length (requests w') = length (requests w) + 1 + 2 * length first_plan.
Proof.
  cbv zeta. rewrite run_unfold. unfold run_turns. cbv zeta.
  pose proof (generate_plan_requests {| history := []; replan_count := 0 |}
                question "无" w) as Hreq.
  destruct (_generate_plan _ _ _ _) as [[|s rest] w0]; cbn [fst snd] in *;
    [contradiction|].
  intros _ Hall.
  destruct (@all_success_loop question (length (s :: rest))
              (replanned {| history := []; replan_count := 0 |} (s :: rest)) w0)
    as (a & w' & Hrun & Hrc & Hh & Hr).
  - cbn. lia.
  - cbn. lia.
  - exact Hall.
  - exists a, w'. split; [exact Hrun|]. split; [exact Hh|]. split; [exact Hrc|].
    rewrite Hr, Hreq. lia.
Qed.

End WholeRuns.

(** ** The further properties on concrete inputs *)

(** A turn of a list of turns, from its state. *)
Lemma nth_turn_of_state {P : Platform} (l : list (run_state * world)) (j : nat)
    (st : run_state) (w : world) :
  option_map fst (nth_error l j) = Some st ->
  nth_error l j = Some (st, snd (nth j l (st, w))).
Proof.
  revert j. induction l as [|[st' w'] l IH]; intros [|j]; cbn; try discriminate.
  - intros H. now injection H as ->.
  - apply IH.
Defined.

Lemma BaseAgent_init_settings_witness :
  let getenv := fun name =>
    if name =? "LLM_API_KEY" then Some "k" else
    if name =? "LLM_BASE_URL" then Some "http://u" else None in
  BaseAgent.__init__ getenv (fun _ => None) (Some "m") (Some "") None (Some 0%Z)
  = inr (BaseAgent.Config "m" "k" "http://u" 60)
  /\ getenv "LLM_API_KEY" = Some "k".
Proof.
  cbv zeta. split; [reflexivity|].
  exact (proj1 (proj2 (proj2
           (@BaseAgent_init_settings
              (fun name =>
                 if name =? "LLM_API_KEY" then Some "k" else
                 if name =? "LLM_BASE_URL" then Some "http://u" else None)
              (fun _ => None) (Some "m") (Some "") None (Some 0%Z)
              (BaseAgent.Config "m" "k" "http://u" 60) eq_refl)))).
Defined.

Lemma BaseAgent_init_missing_witness :
  exists e,
    BaseAgent.__init__ (fun _ => None) (fun _ => None)
      (Some "m") (Some "k") (Some "") (Some 30%Z) = inl e.
Proof.
  apply (@BaseAgent_init_missing (fun _ => None) (fun _ => None)
           (Some "m") (Some "k") (Some "") (Some 30%Z)).
  reflexivity.
Defined.

Lemma split_join_round_trip_witness :
  join "```" (split "```" "a```b``c```") = "a```b``c```".
Proof.
  apply split_join_round_trip. discriminate.
Defined.

Lemma split_second_segment_witness :
  nth_error (split "```python" "no plan here") 1 = None.
Proof.
  apply (proj1 (@split_second_segment "```python" "no plan here"
                  ltac:(discriminate))).
  reflexivity.
Defined.

Lemma Planner_plan_reads_tagged_block_witness :
  fst (@Planner_plan Script.platform "goal" "无" "无"
         (Script.start
            [Some ("The plan:" ++ nl ++ "```python" ++ (nl ++ "['a', 'b']" ++ nl)
                   ++ "```" ++ nl ++ "Two steps.")%string]))
  = [PyStr "a"; PyStr "b"].
Proof.
  apply (@Planner_plan_reads_tagged_block Script.platform "goal" "无" "无"
           (Script.start
              [Some ("The plan:" ++ nl ++ "```python" ++ (nl ++ "['a', 'b']" ++ nl)
                     ++ "```" ++ nl ++ "Two steps.")%string])
           ("The plan:" ++ nl)%string (nl ++ "['a', 'b']" ++ nl)%string
           (nl ++ "Two steps.")%string);
    reflexivity.
Defined.

Lemma run_loop_bounds_witness :
  step_index (Script.first_turn [PyStr "a"; PyStr "b"; PyStr "c"])
  <= length (plan (Script.first_turn [PyStr "a"; PyStr "b"; PyStr "c"])).
Proof.
  refine (proj1 (proj2
            (@run_loop_bounds Script.platform 10 "goal"
               (Script.start Script.happy_path) 0
               (Script.first_turn [PyStr "a"; PyStr "b"; PyStr "c"])
               _ (nth_turn_of_state _ _ (Script.start []) _)))).
  vm_compute. reflexivity.
Defined.

Lemma completed_run_has_history_witness :
  history {| history := [Entry (PyStr "a") "ra"; Entry (PyStr "b") "rb";
                         Entry (PyStr "c") "rc"];
             replan_count := 0 |} <> [].
Proof.
  refine (proj1
            (@completed_run_has_history Script.platform 10 init "goal"
               (Script.start Script.happy_path) "rc" _
               (snd (@run Script.platform 10 init "goal"
                       (Script.start Script.happy_path))) _)).
  apply (@pair_of_fst _ _ (@run Script.platform 10 init "goal"
                             (Script.start Script.happy_path))).
  vm_compute. reflexivity.
Defined.

Lemma run_planner_calls_witness :
  exists t,
    trace (snd (@run Script.platform 10 init "goal"
                  (Script.start Script.replan_forever)))
    = trace (Script.start Script.replan_forever) ++ t
    /\ count_plans t + exhausted ReplanBudgetExhausted = 1 + 4
    /\ count_plans t <= MAX_REPLANS + 1.
Proof.
  refine (@run_planner_calls Script.platform 10 init "goal"
            (Script.start Script.replan_forever) ReplanBudgetExhausted
            {| history := []; replan_count := 4 |} _ _).
  apply (@pair_of_fst _ _ (@run Script.platform 10 init "goal"
                             (Script.start Script.replan_forever))).
  vm_compute. reflexivity.
Defined.

Lemma run_trace_cycles_witness :
  exists first_plan t,
    trace (snd (@run Script.platform 10 init "goal"
                  (Script.start Script.bounded_retry)))
    = trace (Script.start Script.bounded_retry) ++ EvPlan "无" "无" first_plan :: t
    /\ cycles t
    /\ length (requests (snd (@run Script.platform 10 init "goal"
                                (Script.start Script.bounded_retry))))
       = length (requests (Script.start Script.bounded_retry))
         + 1 + count_plans t + 2 * count_executions t.
Proof.
  refine (@run_trace_cycles Script.platform 10 init "goal"
            (Script.start Script.bounded_retry) (Completed "r3")
            {| history := [Entry (PyStr "a") "ra"; Entry (PyStr "b") "r3"];
               replan_count := 0 |} _ _).
  apply (@pair_of_fst _ _ (@run Script.platform 10 init "goal"
                             (Script.start Script.bounded_retry))).
  vm_compute. reflexivity.
Defined.

Lemma run_without_initial_plan_witness :
  fst (@run Script.platform 10 init "goal" (Script.start [None; Some "x"]))
  = Some (InitialPlanFailed, {| history := []; replan_count := 0 |}).
Proof.
  apply (@run_without_initial_plan Script.platform 10 init "goal"
           (Script.start [None; Some "x"])).
  reflexivity.
Defined.

Lemma run_all_success_witness :
  exists a w',
    @run Script.platform 4 init "goal" (Script.start Script.happy_path)
    = (Some (Completed (final_answer_of a), a), w')
    /\ map step (history a) = [PyStr "a"; PyStr "b"; PyStr "c"]
    /\ replan_count a = 0.
Proof.
  destruct (@run_all_success Script.platform init "goal"
              (Script.start Script.happy_path))
    as (a & w' & Hrun & Hsteps & Hrc & _).
  - vm_compute. discriminate.
  - vm_compute. reflexivity.
  - exists a, w'. split; [exact Hrun|]. split; [|exact Hrc].
    rewrite Hsteps. vm_compute. reflexivity.
Defined.

Lemma numbered_plan_lines_witness :
  length (split nl (join nl (@numbered Script.platform 0 [PyStr "a"; PyStr "b"]))) = 2
  /\ nth_error (split nl (join nl (@numbered Script.platform 0 [PyStr "a"; PyStr "b"]))) 1
     = Some "2. b".
Proof.
  destruct (@numbered_plan_lines Script.platform [PyStr "a"; PyStr "b"])
    as (Hlen & Hnth).
  - discriminate.
  - intros s [<- | [<- | []]]; reflexivity.
  - split; [exact Hlen | exact (Hnth 1)].
Defined.
